(** * Edit_Image_App: the settings -> prompt/config -> response pipeline

    A shallow embedding of [src/types.ts] and [src/services/geminiService.ts].

    - JavaScript strings are [string]; every literal of the service is ASCII.
    - The [number] fields of the settings are the integers the range sliders
      deliver ([Number(e.target.value)]); they are [Z], and a template
      literal renders them in decimal, which is what JavaScript does for
      every integer of magnitude below 10^21.
    - The response of the SDK is the record structure of its
      [GenerateContentResponse] type: every field the service reads is
      optional there, and is an [option] here.
    - The [async] service functions run in the monad [JS]: they read the
      process environment, emit events (outbound calls, console output) and
      either return or throw. *)

From Stdlib Require Import Bool Ascii String List ZArith Lia.
From Stdlib Require Import Numbers.DecimalString Numbers.DecimalPos Numbers.DecimalZ.
Import ListNotations.

Local Open Scope string_scope.

(* ===================================================================== *)
(** ** src/types.ts *)
(* ===================================================================== *)

Inductive EnhancementQuality := Q_2K | Q_4K | Q_8K.

Inductive EnhancementMode := UPSCALE_ONLY | ENHANCE_RESTORE.

Inductive IDPhotoSize := SIZE_2x3 | SIZE_3x4 | SIZE_4x6 | SIZE_35x45 | SIZE_5x5.

Inductive IDPhotoBackground := WHITE | BLUE | RED | BLACK | GRAY.

(** The members of the TypeScript enums are strings; these are their values,
    which is what [===] compares and what a template literal prints. *)
Definition EnhancementQuality_value (q : EnhancementQuality) : string :=
  match q with
  | Q_2K => "2K (Fast)"
  | Q_4K => "4K (Sharp)"
  | Q_8K => "8K ULTRA HDR"
  end.

Definition EnhancementMode_value (m : EnhancementMode) : string :=
  match m with
  | UPSCALE_ONLY => "Upscale Only"
  | ENHANCE_RESTORE => "Enhance & Restore"
  end.

Definition IDPhotoSize_value (z : IDPhotoSize) : string :=
  match z with
  | SIZE_2x3 => "2x3 cm"
  | SIZE_3x4 => "3x4 cm"
  | SIZE_4x6 => "4x6 cm"
  | SIZE_35x45 => "3.5x4.5 cm (Passport)"
  | SIZE_5x5 => "5x5 cm (Visa)"
  end.

Definition IDPhotoBackground_value (b : IDPhotoBackground) : string :=
  match b with
  | WHITE => "White"
  | BLUE => "Blue"
  | RED => "Red"
  | BLACK => "Black"
  | GRAY => "Gray"
  end.

(** The three settings interfaces share field names; each lives in a module
    of its own name. *)
Module EditorSettings.
Record t := mk {
  quality : EnhancementQuality;
  mode : EnhancementMode;
  retouchLevel : Z;
  sharpenLevel : Z;
  upscaleLevel : Z;
  hyperRealism : bool;
  colorize : bool;
  makeup : bool
}.
End EditorSettings.

Module IDPhotoSettings.
Record t := mk {
  size : IDPhotoSize;
  backgroundColor : IDPhotoBackground;
  quality : EnhancementQuality;
  skinSmoothing : Z;
  removeBlemishes : bool;
  fixLighting : bool
}.
End IDPhotoSettings.

Module RestorationSettings.
Record t := mk {
  scratchReduction : Z;
  denoiseLevel : Z;
  colorRestoration : bool;
  faceRestoration : bool;
  sharpenArtifacts : bool;
  quality : EnhancementQuality
}.
End RestorationSettings.

(* ===================================================================== *)
(** ** JavaScript strings *)
(* ===================================================================== *)

Module Js.

(** [a === b] on strings. *)
Definition strict_eq (a b : string) : bool := String.eqb a b.

(** A string is falsy exactly when it is empty. *)
Definition truthy (s : string) : bool :=
  match s with
  | EmptyString => false
  | String _ _ => true
  end.

(** [a || b] on strings. *)
Definition or_else (a b : string) : string := if truthy a then a else b.

(** [`${n}`] for an integer [n]. *)
Definition of_number (n : Z) : string := NilZero.string_of_int (Z.to_int n).

(** The rest of [s] after the literal [p], when [s] starts with [p]. *)
Fixpoint strip_prefix (p s : string) : option string :=
  match p with
  | EmptyString => Some s
  | String a p' =>
      match s with
      | EmptyString => None
      | String b s' => if Ascii.eqb a b then strip_prefix p' s' else None
      end
  end.

(** The longest prefix of [s] whose characters satisfy [f], and the rest. *)
Fixpoint span (f : ascii -> bool) (s : string) : string * string :=
  match s with
  | EmptyString => (EmptyString, EmptyString)
  | String a s' =>
      if f a then let (run, rest) := span f s' in (String a run, rest)
      else (EmptyString, s)
  end.

(** The first alternative of [alts] that [s] starts with is removed. *)
Fixpoint strip_first (alts : list string) (s : string) : option string :=
  match alts with
  | [] => None
  | p :: alts' =>
      match strip_prefix p s with
      | Some rest => Some rest
      | None => strip_first alts' s
      end
  end.

(** The number of positions of [s] at which [sub] starts. *)
Fixpoint occurrences (sub s : string) : nat :=
  (if String.prefix sub s then 1 else 0) +
  match s with
  | EmptyString => 0
  | String _ s' => occurrences sub s'
  end.

(** [s.includes(sub)]. *)
Definition includes (s sub : string) : bool := Nat.ltb 0 (occurrences sub s).

(** The number of characters of [s] equal to [c]. *)
Fixpoint count (c : ascii) (s : string) : nat :=
  match s with
  | EmptyString => 0
  | String a s' => (if Ascii.eqb c a then 1 else 0) + count c s'
  end.

(** [s.slice(n)]. *)
Fixpoint drop (n : nat) (s : string) : string :=
  match n, s with
  | O, _ => s
  | S _, EmptyString => EmptyString
  | S n', String _ s' => drop n' s'
  end.

End Js.

(* ===================================================================== *)
(** ** src/services/geminiService.ts: the pure helpers *)
(* ===================================================================== *)

(** [dataUrl.replace(/^data:image\/(png|jpeg|jpg|webp);base64,/, "")]: the
    pattern is anchored and has no [g] flag, so at most the header at the
    start is removed; a string that does not start with it is unchanged. *)
Definition cleanBase64 (dataUrl : string) : string :=
  match Js.strip_prefix "data:image/" dataUrl with
  | Some rest =>
      match Js.strip_first ["png;base64,"; "jpeg;base64,"; "jpg;base64,";
                            "webp;base64,"] rest with
      | Some payload => payload
      | None => dataUrl
      end
  | None => dataUrl
  end.

(** The class [[a-zA-Z+]]. *)
Definition mime_char (c : ascii) : bool :=
  let n := nat_of_ascii c in
  ((97 <=? n) && (n <=? 122) || (65 <=? n) && (n <=? 90) || (n =? 43))%nat.

(** [dataUrl.match(/^data:(image\/[a-zA-Z+]+);base64,/)], group 1, with the
    default ['image/jpeg'].  The class excludes [;], so the greedy run is
    the only candidate for the group. *)
Definition getMimeType (dataUrl : string) : string :=
  match Js.strip_prefix "data:image/" dataUrl with
  | Some rest =>
      let (run, tail) := Js.span mime_char rest in
      match Js.truthy run, Js.strip_prefix ";base64," tail with
      | true, Some _ => "image/" ++ run
      | _, _ => "image/jpeg"
      end
  | None => "image/jpeg"
  end.

(* ===================================================================== *)
(** ** The SDK boundary: requests, responses, errors *)
(* ===================================================================== *)

(** A thrown value: [new Error(m)], or the [TypeError] the engine raises on
    a property read of [undefined]. *)
Inductive JsError :=
| Error (message : string)
| TypeError (message : string).

Definition message (e : JsError) : string :=
  match e with
  | Error m => m
  | TypeError m => m
  end.

Record Blob := { data : option string; mimeType : option string }.

Record Part := { inlineData : option Blob; text : option string }.

Record Content := { parts : option (list Part) }.

Record Candidate := { content : option Content }.

Record GenerateContentResponse := { candidates : option (list Candidate) }.

Record ImageConfig := { imageSize : option string; aspectRatio : option string }.

(** [{}] is [{| imageConfig := None |}]. *)
Record GenerateContentConfig := { imageConfig : option ImageConfig }.

Record GenerateContentParameters := {
  model : string;
  contents : list Part;
  config : GenerateContentConfig
}.

Definition throw {A : Type} (e : JsError) : JsError + A := inl e.

(** [part.inlineData && part.inlineData.data], when truthy. *)
Definition inline_payload (part : Part) : option string :=
  match inlineData part with
  | Some blob =>
      match data blob with
      | Some d => if Js.truthy d then Some d else None
      | None => None
      end
  | None => None
  end.

(** The [for ... of] loop of [extractImageFromResponse]: the first part
    with a payload ends it. *)
Fixpoint first_inline_payload (ps : list Part) : option string :=
  match ps with
  | [] => None
  | part :: rest =>
      match inline_payload part with
      | Some d => Some d
      | None => first_inline_payload rest
      end
  end.

(** [response.candidates && response.candidates[0].content.parts]: an array,
    even an empty one, is truthy; [candidates[0]] of an empty array is
    [undefined], and so is an absent [content]; reading a property of
    [undefined] throws. *)
Definition extractImageFromResponse (response : GenerateContentResponse)
  : JsError + string :=
  match candidates response with
  | None => throw (Error "No image data returned from Gemini.")
  | Some cs =>
      match nth_error cs 0 with
      | None =>
          throw (TypeError
            "Cannot read properties of undefined (reading 'content')")
      | Some c0 =>
          match content c0 with
          | None =>
              throw (TypeError
                "Cannot read properties of undefined (reading 'parts')")
          | Some ct =>
              match parts ct with
              | None => throw (Error "No image data returned from Gemini.")
              | Some ps =>
                  match first_inline_payload ps with
                  | Some d => inr ("data:image/png;base64," ++ d)
                  | None => throw (Error "No image data returned from Gemini.")
                  end
              end
          end
      end
  end.

(* ===================================================================== *)
(** ** Effects *)
(* ===================================================================== *)

(** What a run does to the outside: one [Outbound] per
    [ai.models.generateContent] of a client built from [apiKey], one
    [ConsoleError] per [console.error]. *)
Inductive Event :=
| Outbound (apiKey : string) (params : GenerateContentParameters)
| ConsoleError (label : string) (error : JsError).

(** The outside: [process.env.API_KEY] and the remote capability, which
    answers a call with a response or rejects it. *)
Record Env := {
  API_KEY : option string;
  remote : string -> GenerateContentParameters ->
           JsError + GenerateContentResponse
}.

Definition JS (A : Type) : Type := Env -> list Event * (JsError + A).

Module JSMonad.

Definition ret {A} (x : A) : JS A := fun _ => ([], inr x).

Definition bind {A B} (m : JS A) (k : A -> JS B) : JS B :=
  fun env =>
    let (t, r) := m env in
    match r with
    | inl e => (t, inl e)
    | inr x => let (t', r') := k x env in ((t ++ t')%list, r')
    end.

Definition raise {A} (e : JsError) : JS A := fun _ => ([], inl e).

Definition lift {A} (r : JsError + A) : JS A := fun _ => ([], r).

(** [try { body } catch (error) { handler }]. *)
Definition try_catch {A} (body : JS A) (handler : JsError -> JS A) : JS A :=
  fun env =>
    let (t, r) := body env in
    match r with
    | inl e => let (t', r') := handler e env in ((t ++ t')%list, r')
    | inr x => (t, inr x)
    end.

Definition env_API_KEY : JS (option string) :=
  fun env => ([], inr (API_KEY env)).

(** [await ai.models.generateContent(params)]. *)
Definition generateContent (apiKey : string)
  (params : GenerateContentParameters) : JS GenerateContentResponse :=
  fun env => ([Outbound apiKey params], remote env apiKey params).

Definition console_error (label : string) (error : JsError) : JS unit :=
  fun _ => ([ConsoleError label error], inr tt).

End JSMonad.
Import JSMonad.

Notation "x <- m ;; k" := (bind m (fun x => k))
  (at level 61, m at next level, right associativity).
Notation "m ;;; k" := (bind m (fun _ => k))
  (at level 61, right associativity).

(** The events and the outcome of a run. *)
Definition trace {A} (run : list Event * (JsError + A)) : list Event := fst run.
Definition outcome {A} (run : list Event * (JsError + A)) : JsError + A := snd run.

(** The outbound calls among the events, in order. *)
Fixpoint outbound_calls (t : list Event) : list GenerateContentParameters :=
  match t with
  | [] => []
  | Outbound _ params :: t' => params :: outbound_calls t'
  | ConsoleError _ _ :: t' => outbound_calls t'
  end.

(** [!apiKey] holds for [undefined] and for the empty string. *)
Definition getApiKey : JS string :=
  apiKey <- env_API_KEY ;;
  match apiKey with
  | Some k =>
      if Js.truthy k then ret k
      else raise (Error
        "API Key is missing. Please check your environment configuration.")
  | None =>
      raise (Error
        "API Key is missing. Please check your environment configuration.")
  end.

(* ===================================================================== *)
(** ** enhanceImageWithGemini *)
(* ===================================================================== *)

Definition image_part (cleanData mimeType : string) : Part :=
  {| inlineData := Some {| data := Some cleanData; mimeType := Some mimeType |};
     text := None |}.

Definition text_part (prompt : string) : Part :=
  {| inlineData := None; text := Some prompt |}.

(** [settings.quality === EnhancementQuality.Q_8K]. *)
Definition enhance_isPro (settings : EditorSettings.t) : bool :=
  Js.strict_eq (EnhancementQuality_value (EditorSettings.quality settings))
               (EnhancementQuality_value Q_8K).

Definition enhance_model (settings : EditorSettings.t) : string :=
  if enhance_isPro settings then "gemini-3-pro-image-preview"
  else "gemini-2.5-flash-image".

(** The [let prompt] of the function and its [prompt += ...] statements, in
    the order of the source. *)
Definition enhance_prompt (settings : EditorSettings.t) : string :=
  let prompt := "Edit this image to improve its quality significantly." in
  let prompt :=
    if Js.strict_eq (EnhancementMode_value (EditorSettings.mode settings))
                    (EnhancementMode_value ENHANCE_RESTORE)
    then
      let prompt :=
        prompt ++ " Restore facial details, fix artifacts, and improve lighting." in
      let prompt :=
        if EditorSettings.hyperRealism settings
        then prompt ++ " Maintain realistic skin texture (hyper-realism)."
        else prompt in
      let prompt :=
        if EditorSettings.makeup settings
        then prompt ++ " Apply very subtle, natural enhancement to facial features."
        else prompt in
      let prompt :=
        if EditorSettings.colorize settings
        then prompt ++ " Ensure colors are vibrant and corrected."
        else prompt in
      prompt
    else
      prompt ++ " Focus strictly on upscaling and sharpening the image details without altering facial features." in
  let prompt :=
    prompt ++ " The target quality should perceive as "
           ++ EnhancementQuality_value (EditorSettings.quality settings) ++ "." in
  let prompt :=
    prompt ++ " Sharpening intensity: "
           ++ Js.of_number (EditorSettings.sharpenLevel settings) ++ "%." in
  let prompt := prompt ++ " Return the processed image in high resolution." in
  prompt.

(** [const config: any = {}; if (isPro) config.imageConfig = { imageSize: '4K' }]. *)
Definition enhance_config (settings : EditorSettings.t) : GenerateContentConfig :=
  if enhance_isPro settings
  then {| imageConfig := Some {| imageSize := Some "4K"; aspectRatio := None |} |}
  else {| imageConfig := None |}.

Definition enhanceImageWithGemini (imageBase64 : string)
  (settings : EditorSettings.t) : JS string :=
  apiKey <- getApiKey ;;
  let model := enhance_model settings in
  let prompt := enhance_prompt settings in
  try_catch
    (let mimeType := getMimeType imageBase64 in
     let cleanData := cleanBase64 imageBase64 in
     let config := enhance_config settings in
     response <- generateContent apiKey
       {| model := model;
          contents := [image_part cleanData mimeType; text_part prompt];
          config := config |} ;;
     lift (extractImageFromResponse response))
    (fun error =>
       console_error "Gemini API Error:" error ;;;
       raise (Error (Js.or_else (message error)
                                "Failed to process image with AI"))).

(* ===================================================================== *)
(** ** generateIDPhotoWithGemini *)
(* ===================================================================== *)

Definition bgMap (b : IDPhotoBackground) : string :=
  match b with
  | WHITE => "pure white (#FFFFFF)"
  | BLUE => "standard ID photo blue (#2196F3)"
  | RED => "standard ID photo red (#D32F2F)"
  | BLACK => "solid black"
  | GRAY => "professional gray"
  end.

(** [let apiAspectRatio = "3:4"; if (settings.size === IDPhotoSize.SIZE_5x5)
    apiAspectRatio = "1:1"]. *)
Definition apiAspectRatio (settings : IDPhotoSettings.t) : string :=
  if Js.strict_eq (IDPhotoSize_value (IDPhotoSettings.size settings))
                  (IDPhotoSize_value SIZE_5x5)
  then "1:1" else "3:4".

Definition sizeMap (z : IDPhotoSize) : string :=
  match z with
  | SIZE_2x3 => "vertical ID photo (2cm x 3cm ratio)"
  | SIZE_3x4 => "standard vertical ID photo (3cm x 4cm ratio)"
  | SIZE_4x6 => "large vertical ID photo (4cm x 6cm ratio)"
  | SIZE_35x45 => "passport photo (3.5cm x 4.5cm ratio)"
  | SIZE_5x5 => "square visa photo (5cm x 5cm ratio)"
  end.

Definition idphoto_prompt (settings : IDPhotoSettings.t) : string :=
  let prompt :=
    "Strictly transform this image into a professional official ID/Passport photo. " in
  let prompt :=
    prompt ++ "1. CROP & COMPOSITION: Crop the image to a "
           ++ (if Js.strict_eq (apiAspectRatio settings) "3:4"
               then "Vertical Portrait" else "Square")
           ++ " format. " in
  let prompt :=
    prompt ++ "The face must be perfectly CENTERED and facing forward. " in
  let prompt :=
    prompt ++ "The head (from top of hair to chin) must occupy 70% to 80% of the vertical height. " in
  let prompt :=
    prompt ++ "Include the shoulders. Both ears should be visible if possible. Eyes must be level. " in
  let prompt :=
    prompt ++ "2. BACKGROUND: Remove the original background completely. Replace with a clean, flat "
           ++ bgMap (IDPhotoSettings.backgroundColor settings)
           ++ " background. No shadows on the background. " in
  let prompt := prompt ++ "3. ENHANCEMENT: " in
  let prompt :=
    if IDPhotoSettings.removeBlemishes settings
    then prompt ++ "Remove acne, moles, spots, and scratches from the face. "
    else prompt in
  let prompt :=
    prompt ++ "Smooth skin texture naturally (Intensity: "
           ++ Js.of_number (IDPhotoSettings.skinSmoothing settings) ++ "%). " in
  let prompt :=
    if IDPhotoSettings.fixLighting settings
    then prompt ++ "Fix lighting to be even and soft (studio lighting), removing harsh shadows on the face. "
    else prompt in
  let prompt :=
    prompt ++ "4. OUTPUT: High resolution, sharp focus. Intended for printing at "
           ++ sizeMap (IDPhotoSettings.size settings) ++ "." in
  prompt.

Definition idphoto_config (settings : IDPhotoSettings.t) : GenerateContentConfig :=
  {| imageConfig :=
       Some {| imageSize := None; aspectRatio := Some (apiAspectRatio settings) |} |}.

Definition generateIDPhotoWithGemini (imageBase64 : string)
  (settings : IDPhotoSettings.t) : JS string :=
  apiKey <- getApiKey ;;
  let prompt := idphoto_prompt settings in
  try_catch
    (let mimeType := getMimeType imageBase64 in
     let cleanData := cleanBase64 imageBase64 in
     response <- generateContent apiKey
       {| model := "gemini-2.5-flash-image";
          contents := [image_part cleanData mimeType; text_part prompt];
          config := idphoto_config settings |} ;;
     lift (extractImageFromResponse response))
    (fun error =>
       console_error "Gemini ID Photo API Error:" error ;;;
       raise (Error (Js.or_else (message error) "Failed to create ID photo"))).

(* ===================================================================== *)
(** ** restoreImageWithGemini *)
(* ===================================================================== *)

Definition restore_model : string := "gemini-3-pro-image-preview".

Definition restore_prompt (settings : RestorationSettings.t) : string :=
  let prompt :=
    "Act as a professional photo restoration expert. Restore this old, damaged, or blurry photo. " in
  let prompt :=
    prompt ++ "1. DAMAGE REPAIR: Remove scratches, cracks, tears, dust spots, and fold marks. (Intensity: "
           ++ Js.of_number (RestorationSettings.scratchReduction settings)
           ++ "%). " in
  let prompt :=
    prompt ++ "2. DETAIL RECOVERY: Deblur the image and sharpen details specifically on clothing and background textures. " in
  let prompt :=
    if RestorationSettings.faceRestoration settings
    then prompt ++ "Use advanced facial restoration to recover facial features, eyes, and skin texture. CRITICAL: Do NOT alter the person's identity or facial structure. Keep original angles and features authentic. "
    else prompt in
  let prompt :=
    if RestorationSettings.colorRestoration settings
    then prompt ++ "3. COLORIZATION: If the photo is B&W or sepia, strictly colorize it with natural, historically accurate colors. If it's color but faded, restore vibrancy. "
    else prompt ++ "3. COLOR: Keep the original color profile (B&W or Sepia) but improve contrast and remove yellow aging stains. " in
  let prompt :=
    prompt ++ "4. QUALITY: High fidelity restoration. Reduce noise level by "
           ++ Js.of_number (RestorationSettings.denoiseLevel settings) ++ "%." in
  prompt.

Definition restore_config : GenerateContentConfig :=
  {| imageConfig := Some {| imageSize := Some "4K"; aspectRatio := None |} |}.

Definition restoreImageWithGemini (imageBase64 : string)
  (settings : RestorationSettings.t) : JS string :=
  apiKey <- getApiKey ;;
  let model := restore_model in
  let prompt := restore_prompt settings in
  try_catch
    (let mimeType := getMimeType imageBase64 in
     let cleanData := cleanBase64 imageBase64 in
     response <- generateContent apiKey
       {| model := model;
          contents := [image_part cleanData mimeType; text_part prompt];
          config := restore_config |} ;;
     lift (extractImageFromResponse response))
    (fun error =>
       console_error "Gemini Restoration API Error:" error ;;;
       raise (Error (Js.or_else (message error) "Failed to restore photo"))).

(* ===================================================================== *)
(** ** src/App.tsx: the defaults and the dispatch of [handleProcess] *)
(* ===================================================================== *)

Inductive AppTab := ENHANCE | ID_PHOTO | RESTORE.

Definition DEFAULT_ENHANCE_SETTINGS : EditorSettings.t :=
  {| EditorSettings.quality := Q_4K;
     EditorSettings.mode := ENHANCE_RESTORE;
     EditorSettings.retouchLevel := 50;
     EditorSettings.sharpenLevel := 30;
     EditorSettings.upscaleLevel := 25;
     EditorSettings.hyperRealism := true;
     EditorSettings.colorize := true;
     EditorSettings.makeup := false |}.

Definition DEFAULT_ID_SETTINGS : IDPhotoSettings.t :=
  {| IDPhotoSettings.size := SIZE_3x4;
     IDPhotoSettings.backgroundColor := WHITE;
     IDPhotoSettings.quality := Q_4K;
     IDPhotoSettings.skinSmoothing := 60;
     IDPhotoSettings.removeBlemishes := true;
     IDPhotoSettings.fixLighting := true |}.

Definition DEFAULT_RESTORE_SETTINGS : RestorationSettings.t :=
  {| RestorationSettings.scratchReduction := 80;
     RestorationSettings.denoiseLevel := 50;
     RestorationSettings.colorRestoration := true;
     RestorationSettings.faceRestoration := true;
     RestorationSettings.sharpenArtifacts := true;
     RestorationSettings.quality := Q_4K |}.

(** The service call [handleProcess] makes for the active tab. *)
Definition handleProcess_call (activeTab : AppTab) (originalUrl : string)
  (enhanceSettings : EditorSettings.t) (idSettings : IDPhotoSettings.t)
  (restoreSettings : RestorationSettings.t) : JS string :=
  match activeTab with
  | ENHANCE => enhanceImageWithGemini originalUrl enhanceSettings
  | ID_PHOTO => generateIDPhotoWithGemini originalUrl idSettings
  | RESTORE => restoreImageWithGemini originalUrl restoreSettings
  end.

(* ===================================================================== *)
(** ** src/App.tsx: the workspace state and its handlers *)
(* ===================================================================== *)

(** [ImageState] of src/types.ts; [null] is [None]. *)
Module ImageState.
Record t := mk {
  originalUrl : option string;
  processedUrl : option string;
  isProcessing : bool;
  error : option string
}.
End ImageState.

(** The state [useState<ImageState>] starts from. *)
Definition initial_imgState : ImageState.t :=
  {| ImageState.originalUrl := None;
     ImageState.processedUrl := None;
     ImageState.isProcessing := false;
     ImageState.error := None |}.

(** Truthiness of a [string | null]. *)
Definition truthy_url (url : option string) : bool :=
  match url with
  | Some u => Js.truthy u
  | None => false
  end.

(** [processFile], up to the start of the reader: a file whose type does
    not start with 'image/' sets the error through the updater of the
    source and nothing is read ([false]); otherwise the state is left and
    the reader is started ([true]). *)
Definition processFile (fileType : string) (prev : ImageState.t)
  : ImageState.t * bool :=
  if negb (String.prefix "image/" fileType)
  then ({| ImageState.originalUrl := ImageState.originalUrl prev;
           ImageState.processedUrl := ImageState.processedUrl prev;
           ImageState.isProcessing := ImageState.isProcessing prev;
           ImageState.error := Some "Please upload a valid image file." |},
        false)
  else (prev, true).

(** [reader.onload]: the state is replaced. *)
Definition reader_onload (result : string) : ImageState.t :=
  {| ImageState.originalUrl := Some result;
     ImageState.processedUrl := None;
     ImageState.isProcessing := false;
     ImageState.error := None |}.

(** The first [setImgState] of [handleProcess]. *)
Definition handleProcess_begin (prev : ImageState.t) : ImageState.t :=
  {| ImageState.originalUrl := ImageState.originalUrl prev;
     ImageState.processedUrl := ImageState.processedUrl prev;
     ImageState.isProcessing := true;
     ImageState.error := None |}.

(** The [setImgState] of [handleProcess] after the [await]: the one of the
    [try] block for a result, the one of the [catch] block for a thrown
    error. *)
Definition handleProcess_settle (r : JsError + string) (prev : ImageState.t)
  : ImageState.t :=
  match r with
  | inr result =>
      {| ImageState.originalUrl := ImageState.originalUrl prev;
         ImageState.processedUrl := Some result;
         ImageState.isProcessing := false;
         ImageState.error := ImageState.error prev |}
  | inl err =>
      {| ImageState.originalUrl := ImageState.originalUrl prev;
         ImageState.processedUrl := ImageState.processedUrl prev;
         ImageState.isProcessing := false;
         ImageState.error :=
           Some (Js.or_else (message err) "Failed to process image.") |}
  end.

(** [handleProcess] run to its end with no other handler in between: the
    events of the service call and the state after the last updater. *)
Definition handleProcess (imgState : ImageState.t) (activeTab : AppTab)
  (enhanceSettings : EditorSettings.t) (idSettings : IDPhotoSettings.t)
  (restoreSettings : RestorationSettings.t) (env : Env)
  : list Event * ImageState.t :=
  match ImageState.originalUrl imgState with
  | Some url =>
      if Js.truthy url then
        let run := handleProcess_call activeTab url enhanceSettings idSettings
                     restoreSettings env in
        (trace run, handleProcess_settle (outcome run) (handleProcess_begin imgState))
      else ([], imgState)
  | None => ([], imgState)
  end.

(** [resetImage]. *)
Definition resetImage : ImageState.t :=
  {| ImageState.originalUrl := None;
     ImageState.processedUrl := None;
     ImageState.isProcessing := false;
     ImageState.error := None |}.

(** The updater of the 'Try Again' button. *)
Definition try_again (prev : ImageState.t) : ImageState.t :=
  {| ImageState.originalUrl := ImageState.originalUrl prev;
     ImageState.processedUrl := None;
     ImageState.isProcessing := ImageState.isProcessing prev;
     ImageState.error := ImageState.error prev |}.


(** [getProcessingText]. *)
Definition getProcessingText (activeTab : AppTab)
  (enhanceSettings : EditorSettings.t) : string :=
  match activeTab with
  | ID_PHOTO => "Removing background & Formatting..."
  | RESTORE => "Restoring details with Gemini 3 Pro..."
  | ENHANCE =>
      if Js.strict_eq
           (EnhancementQuality_value (EditorSettings.quality enhanceSettings))
           (EnhancementQuality_value Q_8K)
      then "Enhancing with Gemini 3 Pro (High Res)..."
      else "Enhancing details & Upscaling..."
  end.

(** One handler, or one half of an asynchronous one, at a time: what the
    workspace state can do between two renders.  A settle step may come
    from any service call on any image, at any time, which covers every
    interleaving of [handleProcess] with the other handlers. *)
Inductive workspace_step (env : Env) : ImageState.t -> ImageState.t -> Prop :=
| step_processFile (fileType : string) (s : ImageState.t) :
    workspace_step env s (fst (processFile fileType s))
| step_reader_onload (result : string) (s : ImageState.t) :
    workspace_step env s (reader_onload result)
| step_begin (s : ImageState.t) :
    truthy_url (ImageState.originalUrl s) = true ->
    workspace_step env s (handleProcess_begin s)
| step_settle (activeTab : AppTab) (url : string)
    (enhanceSettings : EditorSettings.t) (idSettings : IDPhotoSettings.t)
    (restoreSettings : RestorationSettings.t) (s : ImageState.t) :
    workspace_step env s
      (handleProcess_settle
         (outcome (handleProcess_call activeTab url enhanceSettings idSettings
                     restoreSettings env)) s)
| step_resetImage (s : ImageState.t) : workspace_step env s resetImage
| step_try_again (s : ImageState.t) : workspace_step env s (try_again s).

(** The states the workspace can reach from its initial state. *)
Inductive reachable (env : Env) : ImageState.t -> Prop :=
| reachable_initial : reachable env initial_imgState
| reachable_step (s s' : ImageState.t) :
    reachable env s -> workspace_step env s s' -> reachable env s'.

(* ===================================================================== *)
(** ** Responses, as the extractor reads them *)
(* ===================================================================== *)

(** A response whose first candidate has the content [ps]; [others] are
    the candidates after it. *)
Definition response_with_first (ps : list Part) (others : list Candidate)
  : GenerateContentResponse :=
  {| candidates := Some ({| content := Some {| parts := Some ps |} |} :: others) |}.

(** The segments [extractImageFromResponse] has to scan: those of the
    content of the first candidate, none where any of the three is absent. *)
Definition scanned_segments (response : GenerateContentResponse) : list Part :=
  match candidates response with
  | Some (c0 :: _) =>
      match content c0 with
      | Some ct =>
          match parts ct with
          | Some ps => ps
          | None => []
          end
      | None => []
      end
  | _ => []
  end.

(* ===================================================================== *)
(** ** Sample inputs *)
(* ===================================================================== *)

Module Sample.

Definition jpeg : string := "data:image/jpeg;base64,/9j/4AAQ".

(** A configured key and a remote that answers every call with a text
    segment followed by a JPEG segment. *)
Definition env : Env :=
  {| API_KEY := Some "key";
     remote := fun _ _ =>
       inr (response_with_first
              [text_part "Here is your image.";
               image_part "iVBORw0KGgo=" "image/jpeg"] []) |}.

(** No key in the environment. *)
Definition env_without_key : Env :=
  {| API_KEY := None; remote := remote env |}.

(** The default enhance settings with other retouch and upscale levels. *)
Definition enhance_other_levels : EditorSettings.t :=
  {| EditorSettings.quality := Q_4K;
     EditorSettings.mode := ENHANCE_RESTORE;
     EditorSettings.retouchLevel := 0;
     EditorSettings.sharpenLevel := 30;
     EditorSettings.upscaleLevel := 100;
     EditorSettings.hyperRealism := true;
     EditorSettings.colorize := true;
     EditorSettings.makeup := false |}.

(** The default enhance settings with the makeup toggle on. *)
Definition enhance_with_makeup : EditorSettings.t :=
  {| EditorSettings.quality := Q_4K;
     EditorSettings.mode := ENHANCE_RESTORE;
     EditorSettings.retouchLevel := 50;
     EditorSettings.sharpenLevel := 30;
     EditorSettings.upscaleLevel := 25;
     EditorSettings.hyperRealism := true;
     EditorSettings.colorize := true;
     EditorSettings.makeup := true |}.

(** The default restoration settings with [sharpenArtifacts] off. *)
Definition restore_without_sharpen : RestorationSettings.t :=
  {| RestorationSettings.scratchReduction := 80;
     RestorationSettings.denoiseLevel := 50;
     RestorationSettings.colorRestoration := true;
     RestorationSettings.faceRestoration := true;
     RestorationSettings.sharpenArtifacts := false;
     RestorationSettings.quality := Q_4K |}.

(** Other ID-photo settings than the default ones in the quality only. *)
Definition id_with_8K : IDPhotoSettings.t :=
  {| IDPhotoSettings.size := SIZE_3x4;
     IDPhotoSettings.backgroundColor := WHITE;
     IDPhotoSettings.quality := Q_8K;
     IDPhotoSettings.skinSmoothing := 60;
     IDPhotoSettings.removeBlemishes := true;
     IDPhotoSettings.fixLighting := true |}.

(** Upscale-only settings, and the same with the three flags flipped. *)
Definition upscale_only : EditorSettings.t :=
  {| EditorSettings.quality := Q_2K;
     EditorSettings.mode := UPSCALE_ONLY;
     EditorSettings.retouchLevel := 50;
     EditorSettings.sharpenLevel := 120;
     EditorSettings.upscaleLevel := 25;
     EditorSettings.hyperRealism := true;
     EditorSettings.colorize := true;
     EditorSettings.makeup := false |}.

Definition upscale_only_flipped : EditorSettings.t :=
  {| EditorSettings.quality := Q_2K;
     EditorSettings.mode := UPSCALE_ONLY;
     EditorSettings.retouchLevel := 50;
     EditorSettings.sharpenLevel := 120;
     EditorSettings.upscaleLevel := 25;
     EditorSettings.hyperRealism := false;
     EditorSettings.colorize := false;
     EditorSettings.makeup := true |}.

(** A workspace with a loaded image and an earlier result. *)
Definition workspace_with_result : ImageState.t :=
  {| ImageState.originalUrl := Some jpeg;
     ImageState.processedUrl := Some "data:image/png;base64,iVBORw0KGgo=";
     ImageState.isProcessing := false;
     ImageState.error := None |}.

(** A response whose only candidate was stopped before any content, as
    the SDK delivers it for a blocked generation: [content] is absent. *)
Definition response_without_content : GenerateContentResponse :=
  {| candidates := Some [ {| content := None |} ] |}.

End Sample.

(* ===================================================================== *)
(** ** The vocabulary of the properties *)
(* ===================================================================== *)

(** [!apiKey] of [getApiKey]: the variable is unset, or set to the empty
    string. *)
Definition api_key_missing (env : Env) : Prop :=
  API_KEY env = None \/ API_KEY env = Some "".

(** Two enhance settings that agree on every field but [retouchLevel] and
    [upscaleLevel]. *)
Definition agree_but_retouch_upscale (a b : EditorSettings.t) : Prop :=
  EditorSettings.quality a = EditorSettings.quality b /\
  EditorSettings.mode a = EditorSettings.mode b /\
  EditorSettings.sharpenLevel a = EditorSettings.sharpenLevel b /\
  EditorSettings.hyperRealism a = EditorSettings.hyperRealism b /\
  EditorSettings.colorize a = EditorSettings.colorize b /\
  EditorSettings.makeup a = EditorSettings.makeup b.

(** Two restoration settings that agree on every field but
    [sharpenArtifacts]. *)
Definition agree_but_sharpenArtifacts (a b : RestorationSettings.t) : Prop :=
  RestorationSettings.scratchReduction a = RestorationSettings.scratchReduction b /\
  RestorationSettings.denoiseLevel a = RestorationSettings.denoiseLevel b /\
  RestorationSettings.colorRestoration a = RestorationSettings.colorRestoration b /\
  RestorationSettings.faceRestoration a = RestorationSettings.faceRestoration b /\
  RestorationSettings.quality a = RestorationSettings.quality b.

(** What the service function of a tab passes to [generateContent]. *)
Definition call_params (activeTab : AppTab) (originalUrl : string)
  (enhanceSettings : EditorSettings.t) (idSettings : IDPhotoSettings.t)
  (restoreSettings : RestorationSettings.t) : GenerateContentParameters :=
  match activeTab with
  | ENHANCE =>
      {| model := enhance_model enhanceSettings;
         contents := [image_part (cleanBase64 originalUrl) (getMimeType originalUrl);
                      text_part (enhance_prompt enhanceSettings)];
         config := enhance_config enhanceSettings |}
  | ID_PHOTO =>
      {| model := "gemini-2.5-flash-image";
         contents := [image_part (cleanBase64 originalUrl) (getMimeType originalUrl);
                      text_part (idphoto_prompt idSettings)];
         config := idphoto_config idSettings |}
  | RESTORE =>
      {| model := restore_model;
         contents := [image_part (cleanBase64 originalUrl) (getMimeType originalUrl);
                      text_part (restore_prompt restoreSettings)];
         config := restore_config |}
  end.

(** The label of the [console.error] in the [catch] block of a tab's
    service function, and the message it falls back to. *)
Definition console_label (activeTab : AppTab) : string :=
  match activeTab with
  | ENHANCE => "Gemini API Error:"
  | ID_PHOTO => "Gemini ID Photo API Error:"
  | RESTORE => "Gemini Restoration API Error:"
  end.

Definition fallback_message (activeTab : AppTab) : string :=
  match activeTab with
  | ENHANCE => "Failed to process image with AI"
  | ID_PHOTO => "Failed to create ID photo"
  | RESTORE => "Failed to restore photo"
  end.

(** What the [try] block of a service function ends with: the rejection of
    the call, or what the extractor makes of the response. *)
Definition attempt (env : Env) (k : string) (params : GenerateContentParameters)
  : JsError + string :=
  match remote env k params with
  | inl e => inl e
  | inr response => extractImageFromResponse response
  end.

(** The key [getApiKey] returns, if it returns. *)
Definition configured_key (env : Env) : option string :=
  match API_KEY env with
  | Some k => if Js.truthy k then Some k else None
  | None => None
  end.

(** A data URL of the fixed output type with a non-empty payload. *)
Definition png_data_url (url : string) : Prop :=
  exists payload, payload <> "" /\ url = "data:image/png;base64," ++ payload.

(** Every character of [s] satisfies [f]. *)
Fixpoint string_forall (f : ascii -> bool) (s : string) : bool :=
  match s with
  | EmptyString => true
  | String a s' => f a && string_forall f s'
  end.

(** The subtypes [cleanBase64] knows. *)
Definition cleaned_subtypes : list string := ["png"; "jpeg"; "jpg"; "webp"].

(** The headers [cleanBase64] removes. *)
Definition cleaned_headers : list string :=
  ["data:image/png;base64,"; "data:image/jpeg;base64,";
   "data:image/jpg;base64,"; "data:image/webp;base64,"].

(** Decimal renderings consist of digits and, at most, a leading sign. *)
Definition digit_or_minus (c : ascii) : bool :=
  let n := nat_of_ascii c in ((48 <=? n) && (n <=? 57) || (n =? 45))%nat.

(** The literals of [enhanceImageWithGemini], clause by clause. *)
Module EnhanceClause.

Definition opening : string :=
  "Edit this image to improve its quality significantly.".
Definition restoration : string :=
  " Restore facial details, fix artifacts, and improve lighting.".
Definition hyper_realism : string :=
  " Maintain realistic skin texture (hyper-realism).".
Definition cosmetic : string :=
  " Apply very subtle, natural enhancement to facial features.".
Definition colors : string :=
  " Ensure colors are vibrant and corrected.".
Definition upscale_only : string :=
  " Focus strictly on upscaling and sharpening the image details without altering facial features.".
Definition target_quality (q : EnhancementQuality) : string :=
  " The target quality should perceive as " ++ EnhancementQuality_value q ++ ".".
Definition sharpening (level : Z) : string :=
  " Sharpening intensity: " ++ Js.of_number level ++ "%.".
Definition closing : string :=
  " Return the processed image in high resolution.".

(** A clause that is there only when its flag is set. *)
Definition when (flag : bool) (clause : string) : string :=
  if flag then clause else "".

End EnhanceClause.

(** The 'Enhance & Restore' instruction as the specification lists it: the
    opening, the restoration clause, the hyper-realism and the colorize
    clauses under their flags, the quality and sharpening clauses, the
    closing. *)
Definition listed_enhance_restore_prompt (settings : EditorSettings.t) : string :=
  EnhanceClause.opening
  ++ EnhanceClause.restoration
  ++ EnhanceClause.when (EditorSettings.hyperRealism settings)
       EnhanceClause.hyper_realism
  ++ EnhanceClause.when (EditorSettings.colorize settings) EnhanceClause.colors
  ++ EnhanceClause.target_quality (EditorSettings.quality settings)
  ++ EnhanceClause.sharpening (EditorSettings.sharpenLevel settings)
  ++ EnhanceClause.closing.

(** The two literals of the color test of [restoreImageWithGemini], and
    what the function appends before and after it. *)
Module RestoreClause.

Definition colorization : string :=
  "3. COLORIZATION: If the photo is B&W or sepia, strictly colorize it with natural, historically accurate colors. If it's color but faded, restore vibrancy. ".

Definition keep_color : string :=
  "3. COLOR: Keep the original color profile (B&W or Sepia) but improve contrast and remove yellow aging stains. ".

(** Sections 1 and 2 of the instruction, as the function has built them
    when it reaches the color test. *)
Definition before_color (settings : RestorationSettings.t) : string :=
  let prompt :=
    "Act as a professional photo restoration expert. Restore this old, damaged, or blurry photo. " in
  let prompt :=
    prompt ++ "1. DAMAGE REPAIR: Remove scratches, cracks, tears, dust spots, and fold marks. (Intensity: "
           ++ Js.of_number (RestorationSettings.scratchReduction settings)
           ++ "%). " in
  let prompt :=
    prompt ++ "2. DETAIL RECOVERY: Deblur the image and sharpen details specifically on clothing and background textures. " in
  let prompt :=
    if RestorationSettings.faceRestoration settings
    then prompt ++ "Use advanced facial restoration to recover facial features, eyes, and skin texture. CRITICAL: Do NOT alter the person's identity or facial structure. Keep original angles and features authentic. "
    else prompt in
  prompt.

(** Section 4, appended after the color test. *)
Definition after_color (settings : RestorationSettings.t) : string :=
  "4. QUALITY: High fidelity restoration. Reduce noise level by "
  ++ Js.of_number (RestorationSettings.denoiseLevel settings) ++ "%.".

End RestoreClause.

(* ===================================================================== *)
(** ** Facts about strings *)
(* ===================================================================== *)

Section StringFacts.

Lemma prefix_app (p s : string) : String.prefix p (p ++ s) = true.
Proof.
  induction p as [|a p IH]; simpl; [now destruct s|].
  destruct (ascii_dec a a); [exact IH | congruence].
Qed.

Lemma occurrences_unfold (sub s : string) :
  Js.occurrences sub s =
  (if String.prefix sub s then 1 else 0) +
  match s with
  | EmptyString => 0
  | String _ s' => Js.occurrences sub s'
  end.
Proof. destruct s; reflexivity. Qed.

Lemma append_assoc (a b c : string) : (a ++ b) ++ c = a ++ b ++ c.
Proof. induction a as [|x a IH]; simpl; [reflexivity | now rewrite IH]. Qed.

Lemma length_append (a b : string) :
  String.length (a ++ b) = String.length a + String.length b.
Proof. induction a as [|x a IH]; simpl; [reflexivity | now rewrite IH]. Qed.

Lemma count_app (c : ascii) (a b : string) :
  Js.count c (a ++ b) = Js.count c a + Js.count c b.
Proof. induction a as [|x a IH]; simpl; [reflexivity | rewrite IH; lia]. Qed.

(** An occurrence of [sub] survives any text around it. *)
Lemma occurrences_app_pos (sub pre post : string) :
  1 <= Js.occurrences sub (pre ++ sub ++ post).
Proof.
  induction pre as [|x pre IH].
  - change ("" ++ sub ++ post) with (sub ++ post).
    rewrite occurrences_unfold, prefix_app. lia.
  - change (String x pre ++ sub ++ post) with (String x (pre ++ sub ++ post)).
    rewrite occurrences_unfold. lia.
Qed.

Lemma prefix_get (u v : string) (c : ascii) (s : string) :
  String.prefix (u ++ String c v) s = true ->
  String.get (String.length u) s = Some c.
Proof.
  revert s; induction u as [|x u IH]; intros [|a s]; simpl; try discriminate.
  - destruct (ascii_dec c a); [now subst | discriminate].
  - destruct (ascii_dec x a); [apply IH | discriminate].
Qed.

Lemma drop_cons (k : nat) (a : ascii) (s : string) :
  Js.drop k (String a s) =
  match String.get k (String a s) with
  | Some x => String x (Js.drop k s)
  | None => ""
  end.
Proof.
  revert a s; induction k as [|k IH]; intros a s.
  - destruct s; reflexivity.
  - destruct s as [|b s]; [destruct k; reflexivity|].
    change (Js.drop (S k) (String a (String b s))) with (Js.drop k (String b s)).
    change (String.get (S k) (String a (String b s)))
      with (String.get k (String b s)).
    rewrite IH. destruct (String.get k (String b s)); reflexivity.
Qed.

Lemma get_empty (k : nat) : String.get k "" = None.
Proof. destruct k; reflexivity. Qed.

Lemma get_none_drop (k : nat) (a : ascii) (s : string) :
  String.get k (String a s) = None -> Js.drop k s = "".
Proof.
  revert a s; induction k as [|k IH]; intros a s H; [discriminate|].
  destruct s as [|b s]; [reflexivity|].
  exact (IH b s H).
Qed.

Lemma count_drop_le (c : ascii) (k : nat) (s : string) :
  Js.count c (Js.drop k s) <= Js.count c s.
Proof.
  revert s; induction k as [|k IH]; intros [|a s]; simpl; try lia.
  specialize (IH s); lia.
Qed.

(** Every occurrence of a text owns one occurrence of each of its
    characters: there are at most as many of the former as of the latter. *)
Lemma occurrences_le_count_drop (u v : string) (c : ascii) (s : string) :
  Js.occurrences (u ++ String c v) s
  <= Js.count c (Js.drop (String.length u) s).
Proof.
  induction s as [|a s IH].
  - rewrite occurrences_unfold.
    destruct (String.prefix (u ++ String c v) "") eqn:E; [|lia].
    apply prefix_get in E. now rewrite get_empty in E.
  - rewrite drop_cons, occurrences_unfold.
    destruct (String.prefix (u ++ String c v) (String a s)) eqn:E.
    + apply prefix_get in E. rewrite E. simpl.
      rewrite Ascii.eqb_refl. lia.
    + destruct (String.get (String.length u) (String a s)) eqn:G; simpl.
      * lia.
      * apply get_none_drop in G. rewrite G in IH. exact IH.
Qed.

Lemma occurrences_le_count (u v : string) (c : ascii) (s : string) :
  Js.occurrences (u ++ String c v) s <= Js.count c s.
Proof.
  etransitivity; [apply occurrences_le_count_drop | apply count_drop_le].
Qed.

Lemma count_string_of_uint (c : ascii) (d : Decimal.uint) :
  digit_or_minus c = false -> Js.count c (NilEmpty.string_of_uint d) = 0.
Proof.
  intros Hc; induction d; simpl; try reflexivity;
    rewrite IHd;
    match goal with
    | |- (if Ascii.eqb c ?x then _ else _) + 0 = 0 =>
        destruct (Ascii.eqb_spec c x) as [->|_]; [discriminate Hc | reflexivity]
    end.
Qed.

Lemma count_NilZero_uint (c : ascii) (d : Decimal.uint) :
  digit_or_minus c = false -> Js.count c (NilZero.string_of_uint d) = 0.
Proof.
  intros Hc. destruct d;
    try exact (count_string_of_uint c _ Hc).
  simpl. destruct (Ascii.eqb_spec c "0") as [->|_];
    [discriminate Hc | reflexivity].
Qed.

Lemma count_of_number (c : ascii) (n : Z) :
  digit_or_minus c = false -> Js.count c (Js.of_number n) = 0.
Proof.
  intros Hc. unfold Js.of_number, NilZero.string_of_int.
  destruct (Z.to_int n) as [d|d].
  - now apply count_NilZero_uint.
  - change (Js.count c (String "-" (NilZero.string_of_uint d)))
      with ((if Ascii.eqb c "-" then 1 else 0)
            + Js.count c (NilZero.string_of_uint d)).
    rewrite (count_NilZero_uint c d Hc).
    destruct (Ascii.eqb_spec c "-") as [->|_];
      [discriminate Hc | reflexivity].
Qed.

End StringFacts.

(* ===================================================================== *)
(** ** What a run sends *)
(* ===================================================================== *)

Ltac unfold_service :=
  unfold handleProcess_call, enhanceImageWithGemini, generateIDPhotoWithGemini,
    restoreImageWithGemini, getApiKey, try_catch, bind, env_API_KEY,
    generateContent, lift, ret, raise, console_error, trace, outcome;
  cbn beta iota zeta.

Ltac run_with_key Hkey Hk :=
  unfold_service; rewrite Hkey; cbn beta iota; rewrite Hk; cbn beta iota;
  match goal with
  | |- context [remote ?e ?k ?p] =>
      destruct (remote e k p) as [?err | ?resp]; cbn beta iota;
      [| destruct (extractImageFromResponse resp); cbn beta iota]
  end.

Section Runs.

Variable env : Env.
Variable k : string.
Hypothesis Hkey : API_KEY env = Some k.
Hypothesis Hk : Js.truthy k = true.

Lemma enhance_outbound (imageBase64 : string) (settings : EditorSettings.t) :
  outbound_calls (trace (enhanceImageWithGemini imageBase64 settings env)) =
  [ {| model := enhance_model settings;
       contents := [image_part (cleanBase64 imageBase64) (getMimeType imageBase64);
                    text_part (enhance_prompt settings)];
       config := enhance_config settings |} ].
Proof. run_with_key Hkey Hk; reflexivity. Qed.

Lemma idphoto_outbound (imageBase64 : string) (settings : IDPhotoSettings.t) :
  outbound_calls (trace (generateIDPhotoWithGemini imageBase64 settings env)) =
  [ {| model := "gemini-2.5-flash-image";
       contents := [image_part (cleanBase64 imageBase64) (getMimeType imageBase64);
                    text_part (idphoto_prompt settings)];
       config := idphoto_config settings |} ].
Proof. run_with_key Hkey Hk; reflexivity. Qed.

Lemma restore_outbound (imageBase64 : string) (settings : RestorationSettings.t) :
  outbound_calls (trace (restoreImageWithGemini imageBase64 settings env)) =
  [ {| model := restore_model;
       contents := [image_part (cleanBase64 imageBase64) (getMimeType imageBase64);
                    text_part (restore_prompt settings)];
       config := restore_config |} ].
Proof. run_with_key Hkey Hk; reflexivity. Qed.

End Runs.

Lemma enhance_isPro_iff (settings : EditorSettings.t) :
  enhance_isPro settings = true <-> EditorSettings.quality settings = Q_8K.
Proof.
  unfold enhance_isPro.
  destruct (EditorSettings.quality settings); cbn; split; congruence.
Qed.

Lemma apiAspectRatio_by_size (settings : IDPhotoSettings.t) :
  apiAspectRatio settings =
  match IDPhotoSettings.size settings with
  | SIZE_5x5 => "1:1"
  | _ => "3:4"
  end.
Proof.
  unfold apiAspectRatio. now destruct (IDPhotoSettings.size settings).
Qed.

(* ===================================================================== *)
(** ** Model selection and generation config *)
(* ===================================================================== *)

(** C1. With a key configured, an enhance run makes exactly one outbound
    call; its model is 'gemini-3-pro-image-preview' exactly when the quality
    is '8K ULTRA HDR', its config is [{ imageConfig: { imageSize: '4K' } }]
    exactly when the quality is '8K ULTRA HDR', and for every other quality
    the model is 'gemini-2.5-flash-image' and the config is [{}]. *)
Theorem enhance_model_follows_quality
  (env : Env) (k imageBase64 : string) (settings : EditorSettings.t) :
  API_KEY env = Some k -> Js.truthy k = true ->
  exists params,
    outbound_calls (trace (enhanceImageWithGemini imageBase64 settings env))
      = [params] /\
    (model params = "gemini-3-pro-image-preview"
       <-> EditorSettings.quality settings = Q_8K) /\
    (config params =
       {| imageConfig := Some {| imageSize := Some "4K"; aspectRatio := None |} |}
       <-> EditorSettings.quality settings = Q_8K) /\
    (EditorSettings.quality settings <> Q_8K ->
       model params = "gemini-2.5-flash-image" /\
       config params = {| imageConfig := None |}).
Proof.
  intros Hkey Hk. eexists. split; [apply (enhance_outbound env k Hkey Hk)|].
  cbn [model config]. unfold enhance_model, enhance_config.
  pose proof (enhance_isPro_iff settings) as [H1 H2].
  destruct (enhance_isPro settings).
  - specialize (H1 eq_refl). repeat split; auto; congruence.
  - repeat split; auto; try discriminate;
      intros E; specialize (H2 E); discriminate.
Qed.

Lemma enhance_model_follows_quality_witness :
  exists params,
    outbound_calls
      (trace (enhanceImageWithGemini Sample.jpeg DEFAULT_ENHANCE_SETTINGS Sample.env))
      = [params] /\
    (model params = "gemini-3-pro-image-preview"
       <-> EditorSettings.quality DEFAULT_ENHANCE_SETTINGS = Q_8K) /\
    (config params =
       {| imageConfig := Some {| imageSize := Some "4K"; aspectRatio := None |} |}
       <-> EditorSettings.quality DEFAULT_ENHANCE_SETTINGS = Q_8K) /\
    (EditorSettings.quality DEFAULT_ENHANCE_SETTINGS <> Q_8K ->
       model params = "gemini-2.5-flash-image" /\
       config params = {| imageConfig := None |}).
Proof.
  apply (enhance_model_follows_quality Sample.env "key"); reflexivity.
Defined.

(** C3. With a key configured, an ID-photo run makes exactly one outbound
    call, to 'gemini-2.5-flash-image', whose config is
    [{ imageConfig: { aspectRatio } }] with the ratio '1:1' exactly when the
    size is the 5x5 one and '3:4' for every other size: the call's model and
    config are a function of the size alone. *)
Theorem idphoto_ratio_follows_size
  (env : Env) (k imageBase64 : string) (settings : IDPhotoSettings.t) :
  API_KEY env = Some k -> Js.truthy k = true ->
  exists params,
    outbound_calls (trace (generateIDPhotoWithGemini imageBase64 settings env))
      = [params] /\
    model params = "gemini-2.5-flash-image" /\
    config params =
      {| imageConfig :=
           Some {| imageSize := None;
                   aspectRatio :=
                     Some match IDPhotoSettings.size settings with
                          | SIZE_5x5 => "1:1"
                          | _ => "3:4"
                          end |} |} /\
    (config params =
       {| imageConfig := Some {| imageSize := None; aspectRatio := Some "1:1" |} |}
       <-> IDPhotoSettings.size settings = SIZE_5x5) /\
    (IDPhotoSettings.size settings <> SIZE_5x5 ->
       config params =
       {| imageConfig := Some {| imageSize := None; aspectRatio := Some "3:4" |} |}).
Proof.
  intros Hkey Hk. eexists. split; [apply (idphoto_outbound env k Hkey Hk)|].
  cbn [model config]. unfold idphoto_config. rewrite apiAspectRatio_by_size.
  destruct (IDPhotoSettings.size settings);
    repeat split; auto; try discriminate; try congruence.
Qed.

Lemma idphoto_ratio_follows_size_witness :
  exists params,
    outbound_calls
      (trace (generateIDPhotoWithGemini Sample.jpeg DEFAULT_ID_SETTINGS Sample.env))
      = [params] /\
    model params = "gemini-2.5-flash-image" /\
    config params =
      {| imageConfig :=
           Some {| imageSize := None;
                   aspectRatio :=
                     Some match IDPhotoSettings.size DEFAULT_ID_SETTINGS with
                          | SIZE_5x5 => "1:1"
                          | _ => "3:4"
                          end |} |} /\
    (config params =
       {| imageConfig := Some {| imageSize := None; aspectRatio := Some "1:1" |} |}
       <-> IDPhotoSettings.size DEFAULT_ID_SETTINGS = SIZE_5x5) /\
    (IDPhotoSettings.size DEFAULT_ID_SETTINGS <> SIZE_5x5 ->
       config params =
       {| imageConfig := Some {| imageSize := None; aspectRatio := Some "3:4" |} |}).
Proof.
  apply (idphoto_ratio_follows_size Sample.env "key"); reflexivity.
Defined.

(** C4. With a key configured, a restore run makes exactly one outbound
    call, to 'gemini-3-pro-image-preview' with the config
    [{ imageConfig: { imageSize: '4K' } }], whatever the settings; and
    replacing the quality of the settings by any other changes nothing of
    the run. *)
Theorem restore_always_pro_4K
  (env : Env) (k imageBase64 : string) (settings : RestorationSettings.t) :
  API_KEY env = Some k -> Js.truthy k = true ->
  (exists params,
     outbound_calls (trace (restoreImageWithGemini imageBase64 settings env))
       = [params] /\
     model params = "gemini-3-pro-image-preview" /\
     config params =
       {| imageConfig := Some {| imageSize := Some "4K"; aspectRatio := None |} |}) /\
  forall q : EnhancementQuality,
    restoreImageWithGemini imageBase64
      {| RestorationSettings.scratchReduction :=
           RestorationSettings.scratchReduction settings;
         RestorationSettings.denoiseLevel :=
           RestorationSettings.denoiseLevel settings;
         RestorationSettings.colorRestoration :=
           RestorationSettings.colorRestoration settings;
         RestorationSettings.faceRestoration :=
           RestorationSettings.faceRestoration settings;
         RestorationSettings.sharpenArtifacts :=
           RestorationSettings.sharpenArtifacts settings;
         RestorationSettings.quality := q |} env
    = restoreImageWithGemini imageBase64 settings env.
Proof.
  intros Hkey Hk. split.
  - eexists. split; [apply (restore_outbound env k Hkey Hk)|].
    split; reflexivity.
  - intros q. destruct settings. reflexivity.
Qed.

Lemma restore_always_pro_4K_witness :
  (exists params,
     outbound_calls
       (trace (restoreImageWithGemini Sample.jpeg DEFAULT_RESTORE_SETTINGS Sample.env))
       = [params] /\
     model params = "gemini-3-pro-image-preview" /\
     config params =
       {| imageConfig := Some {| imageSize := Some "4K"; aspectRatio := None |} |}) /\
  forall q : EnhancementQuality,
    restoreImageWithGemini Sample.jpeg
      {| RestorationSettings.scratchReduction := 80;
         RestorationSettings.denoiseLevel := 50;
         RestorationSettings.colorRestoration := true;
         RestorationSettings.faceRestoration := true;
         RestorationSettings.sharpenArtifacts := true;
         RestorationSettings.quality := q |} Sample.env
    = restoreImageWithGemini Sample.jpeg DEFAULT_RESTORE_SETTINGS Sample.env.
Proof.
  apply (restore_always_pro_4K Sample.env "key" Sample.jpeg
           DEFAULT_RESTORE_SETTINGS); reflexivity.
Defined.

(* ===================================================================== *)
(** ** The credential *)
(* ===================================================================== *)

(** C8. When the API key is missing from the environment, the service call
    of every tab, for every image and all settings, emits no event at all
    (no outbound call, and nothing on the console) and throws the error
    'API Key is missing. Please check your environment configuration.'. *)
Theorem missing_key_fails_before_any_call
  (env : Env) (activeTab : AppTab) (originalUrl : string)
  (enhanceSettings : EditorSettings.t) (idSettings : IDPhotoSettings.t)
  (restoreSettings : RestorationSettings.t) :
  api_key_missing env ->
  handleProcess_call activeTab originalUrl enhanceSettings idSettings restoreSettings env
  = ([], inl (Error
       "API Key is missing. Please check your environment configuration.")).
Proof.
  intros [H | H]; destruct activeTab; unfold_service; rewrite H; reflexivity.
Qed.

Lemma missing_key_fails_before_any_call_witness :
  handleProcess_call RESTORE Sample.jpeg DEFAULT_ENHANCE_SETTINGS DEFAULT_ID_SETTINGS
    DEFAULT_RESTORE_SETTINGS Sample.env_without_key
  = ([], inl (Error
       "API Key is missing. Please check your environment configuration.")).
Proof.
  apply (missing_key_fails_before_any_call Sample.env_without_key RESTORE).
  left; reflexivity.
Defined.

(* ===================================================================== *)
(** ** Fields no service function reads *)
(* ===================================================================== *)

(** C9. Two enhance settings that differ at most in [retouchLevel] and
    [upscaleLevel] give the same instruction text, the same model and the
    same config, and the two runs of the enhance function on any image in
    any environment are equal, events and outcome. *)
Theorem enhance_ignores_retouch_and_upscale (a b : EditorSettings.t) :
  agree_but_retouch_upscale a b ->
  enhance_prompt a = enhance_prompt b /\
  enhance_model a = enhance_model b /\
  enhance_config a = enhance_config b /\
  forall (imageBase64 : string) (env : Env),
    enhanceImageWithGemini imageBase64 a env
    = enhanceImageWithGemini imageBase64 b env.
Proof.
  destruct a, b. unfold agree_but_retouch_upscale. cbn.
  intros (-> & -> & -> & -> & -> & ->). repeat split.
Qed.

Lemma enhance_ignores_retouch_and_upscale_witness :
  enhance_prompt DEFAULT_ENHANCE_SETTINGS
  = enhance_prompt Sample.enhance_other_levels /\
  enhance_model DEFAULT_ENHANCE_SETTINGS
  = enhance_model Sample.enhance_other_levels /\
  enhance_config DEFAULT_ENHANCE_SETTINGS
  = enhance_config Sample.enhance_other_levels /\
  forall (imageBase64 : string) (env : Env),
    enhanceImageWithGemini imageBase64 DEFAULT_ENHANCE_SETTINGS env
    = enhanceImageWithGemini imageBase64 Sample.enhance_other_levels env.
Proof.
  apply (enhance_ignores_retouch_and_upscale
           DEFAULT_ENHANCE_SETTINGS Sample.enhance_other_levels).
  repeat split; reflexivity.
Defined.

(** C10. Two restoration settings that differ at most in [sharpenArtifacts]
    give the same instruction text (the model and the config of a restore
    call are constants), and the two runs of the restore function on any
    image in any environment are equal, events and outcome. *)
Theorem restore_ignores_sharpenArtifacts (a b : RestorationSettings.t) :
  agree_but_sharpenArtifacts a b ->
  restore_prompt a = restore_prompt b /\
  forall (imageBase64 : string) (env : Env),
    restoreImageWithGemini imageBase64 a env
    = restoreImageWithGemini imageBase64 b env /\
    outbound_calls (trace (restoreImageWithGemini imageBase64 a env))
    = outbound_calls (trace (restoreImageWithGemini imageBase64 b env)).
Proof.
  destruct a, b. unfold agree_but_sharpenArtifacts. cbn.
  intros (-> & -> & -> & -> & ->). repeat split.
Qed.

Lemma restore_ignores_sharpenArtifacts_witness :
  restore_prompt DEFAULT_RESTORE_SETTINGS
  = restore_prompt Sample.restore_without_sharpen /\
  forall (imageBase64 : string) (env : Env),
    restoreImageWithGemini imageBase64 DEFAULT_RESTORE_SETTINGS env
    = restoreImageWithGemini imageBase64 Sample.restore_without_sharpen env /\
    outbound_calls
      (trace (restoreImageWithGemini imageBase64 DEFAULT_RESTORE_SETTINGS env))
    = outbound_calls
      (trace (restoreImageWithGemini imageBase64 Sample.restore_without_sharpen env)).
Proof.
  apply (restore_ignores_sharpenArtifacts
           DEFAULT_RESTORE_SETTINGS Sample.restore_without_sharpen).
  repeat split; reflexivity.
Defined.

(* ===================================================================== *)
(** ** The response extractor *)
(* ===================================================================== *)

Section Extractor.

(** The responses whose first candidate has a content with segments. *)
Variable ps : list Part.
Variable others : list Candidate.

Let response := response_with_first ps others.

Lemma first_inline_payload_skip (pre post : list Part) :
  Forall (fun p => inline_payload p = None) pre ->
  first_inline_payload (pre ++ post)%list = first_inline_payload post.
Proof.
  induction 1 as [|p pre Hp _ IH]; [reflexivity|].
  cbn. now rewrite Hp.
Qed.

(** The first segment with a payload is the one returned, under the fixed
    header, whatever its own media type and whatever follows it. *)
Lemma extract_first_segment (pre post : list Part) (part : Part) (d : string) :
  ps = (pre ++ part :: post)%list ->
  Forall (fun p => inline_payload p = None) pre ->
  inline_payload part = Some d ->
  extractImageFromResponse response = inr ("data:image/png;base64," ++ d).
Proof.
  intros -> Hpre Hpart. unfold extractImageFromResponse, response, response_with_first. cbn.
  rewrite (first_inline_payload_skip pre (part :: post) Hpre). cbn.
  now rewrite Hpart.
Qed.

(** Segments without a payload make it throw its own error. *)
Lemma extract_no_segment :
  Forall (fun p => inline_payload p = None) ps ->
  extractImageFromResponse response
  = inl (Error "No image data returned from Gemini.").
Proof.
  intros H. unfold extractImageFromResponse, response, response_with_first. cbn.
  rewrite <- (app_nil_r ps), (first_inline_payload_skip ps [] H).
  reflexivity.
Qed.

End Extractor.

(** Where the first candidate and its content are there, or there are no
    candidates at all, the extractor returns the first payload among the
    scanned segments under the fixed header, and throws its own error when
    there is none. *)
Lemma extract_by_scanned_segments (response : GenerateContentResponse) :
  (candidates response = None \/
   exists c0 others ct,
     candidates response = Some (c0 :: others) /\ content c0 = Some ct) ->
  extractImageFromResponse response =
  match first_inline_payload (scanned_segments response) with
  | Some d => inr ("data:image/png;base64," ++ d)
  | None => inl (Error "No image data returned from Gemini.")
  end.
Proof.
  unfold extractImageFromResponse, scanned_segments.
  intros [-> | (c0 & others & ct & -> & Hct)]; [reflexivity|].
  cbn. rewrite Hct. destruct (parts ct) as [ps|]; [|reflexivity].
  now destruct (first_inline_payload ps).
Qed.

(** C2. A response whose first candidate has no [content] has no image
    segment to scan, and yet the extractor does not throw 'No image data
    returned from Gemini.': the read of [.parts] throws a [TypeError], and
    the message a run of the enhance function then reports is the
    [TypeError]'s.  The same happens for an empty list of candidates. *)
Theorem extract_without_content_throws_TypeError :
  first_inline_payload (scanned_segments Sample.response_without_content) = None /\
  extractImageFromResponse Sample.response_without_content
  = inl (TypeError "Cannot read properties of undefined (reading 'parts')") /\
  first_inline_payload (scanned_segments {| candidates := Some [] |}) = None /\
  extractImageFromResponse {| candidates := Some [] |}
  = inl (TypeError "Cannot read properties of undefined (reading 'content')") /\
  outcome (enhanceImageWithGemini Sample.jpeg DEFAULT_ENHANCE_SETTINGS
             {| API_KEY := Some "key";
                remote := fun _ _ => inr Sample.response_without_content |})
  = inl (Error "Cannot read properties of undefined (reading 'parts')").
Proof. repeat split. Qed.

(** The payload, once the header of a data URL is cut off. *)
Lemma cleanBase64_png (payload : string) :
  cleanBase64 ("data:image/png;base64," ++ payload) = payload.
Proof. reflexivity. Qed.

(** C7, as the code has it. For every non-empty payload [B] and every
    declared media type, the extractor turns the response whose single
    segment carries [B] into the data URL 'data:image/png;base64,' followed
    by [B], and [cleanBase64] of that data URL is [B]. *)
Theorem extract_then_clean_roundtrip (B mime : string) :
  B <> "" ->
  exists encoded,
    extractImageFromResponse (response_with_first [image_part B mime] [])
      = inr encoded /\
    encoded = "data:image/png;base64," ++ B /\
    cleanBase64 encoded = B.
Proof.
  intros HB. exists ("data:image/png;base64," ++ B). split; [|split].
  - destruct B as [|a B]; [congruence | reflexivity].
  - reflexivity.
  - apply cleanBase64_png.
Qed.

Lemma extract_then_clean_roundtrip_witness :
  exists encoded,
    extractImageFromResponse
      (response_with_first [image_part "iVBORw0KGgo=" "image/webp"] [])
      = inr encoded /\
    encoded = "data:image/png;base64," ++ "iVBORw0KGgo=" /\
    cleanBase64 encoded = "iVBORw0KGgo=".
Proof.
  apply (extract_then_clean_roundtrip "iVBORw0KGgo=" "image/webp").
  discriminate.
Defined.

(** C7, as stated, fails for the empty payload: the segment's [data] is
    falsy, the extractor skips it and throws, and there is no encoding to
    strip. *)
Lemma empty_payload_has_no_roundtrip :
  ~ exists encoded,
      extractImageFromResponse
        (response_with_first [image_part "" "image/png"] [])
        = inr encoded /\
      cleanBase64 encoded = "".
Proof. intros (encoded & H & _). discriminate H. Qed.

(* ===================================================================== *)
(** ** The clauses of the enhance instruction *)
(* ===================================================================== *)

(** The [prompt +=] statements of the 'Enhance & Restore' branch, laid out
    as one concatenation. *)
Lemma enhance_prompt_restore_mode (settings : EditorSettings.t) :
  EditorSettings.mode settings = ENHANCE_RESTORE ->
  enhance_prompt settings =
    EnhanceClause.opening
    ++ EnhanceClause.restoration
    ++ EnhanceClause.when (EditorSettings.hyperRealism settings)
         EnhanceClause.hyper_realism
    ++ EnhanceClause.when (EditorSettings.makeup settings) EnhanceClause.cosmetic
    ++ EnhanceClause.when (EditorSettings.colorize settings) EnhanceClause.colors
    ++ EnhanceClause.target_quality (EditorSettings.quality settings)
    ++ EnhanceClause.sharpening (EditorSettings.sharpenLevel settings)
    ++ EnhanceClause.closing.
Proof.
  intros Hmode. unfold enhance_prompt. rewrite Hmode.
  change (Js.strict_eq (EnhancementMode_value ENHANCE_RESTORE)
            (EnhancementMode_value ENHANCE_RESTORE)) with true.
  cbv beta iota zeta.
  unfold EnhanceClause.target_quality, EnhanceClause.sharpening,
    EnhanceClause.when.
  destruct (EditorSettings.hyperRealism settings),
    (EditorSettings.makeup settings), (EditorSettings.colorize settings);
    rewrite ?append_assoc; reflexivity.
Qed.

(** C6, as the code has it. In mode 'Enhance & Restore' the instruction is
    the concatenation, in this order, of the opening sentence, the
    restoration clause, the hyper-realism clause iff [hyperRealism], the
    cosmetic clause iff [makeup], the colorize clause iff [colorize], the
    clause with the quality label, the clause with the sharpen percentage,
    and the closing clause; a clause whose flag is false contributes
    nothing. *)
Theorem enhance_restore_prompt_clauses (settings : EditorSettings.t) :
  EditorSettings.mode settings = ENHANCE_RESTORE ->
  enhance_prompt settings =
    EnhanceClause.opening
    ++ EnhanceClause.restoration
    ++ (if EditorSettings.hyperRealism settings
        then EnhanceClause.hyper_realism else "")
    ++ (if EditorSettings.makeup settings then EnhanceClause.cosmetic else "")
    ++ (if EditorSettings.colorize settings then EnhanceClause.colors else "")
    ++ EnhanceClause.target_quality (EditorSettings.quality settings)
    ++ EnhanceClause.sharpening (EditorSettings.sharpenLevel settings)
    ++ EnhanceClause.closing.
Proof. exact (enhance_prompt_restore_mode settings). Qed.

Lemma enhance_restore_prompt_clauses_witness :
  enhance_prompt Sample.enhance_with_makeup =
    EnhanceClause.opening
    ++ EnhanceClause.restoration
    ++ EnhanceClause.hyper_realism
    ++ EnhanceClause.cosmetic
    ++ EnhanceClause.colors
    ++ EnhanceClause.target_quality Q_4K
    ++ EnhanceClause.sharpening 30
    ++ EnhanceClause.closing.
Proof.
  apply (enhance_restore_prompt_clauses Sample.enhance_with_makeup).
  reflexivity.
Defined.

(** C6, as stated, fails when [makeup] is set: the instruction then has the
    cosmetic clause, which the list of the specification lacks. *)
Lemma makeup_clause_is_not_listed :
  EditorSettings.mode Sample.enhance_with_makeup = ENHANCE_RESTORE /\
  enhance_prompt Sample.enhance_with_makeup
  <> listed_enhance_restore_prompt Sample.enhance_with_makeup.
Proof. split; [reflexivity | discriminate]. Qed.

(** The list of the specification is the instruction exactly when
    [makeup] is off: the cosmetic clause makes the instruction longer. *)
Lemma listed_prompt_iff_no_makeup (settings : EditorSettings.t) :
  EditorSettings.mode settings = ENHANCE_RESTORE ->
  enhance_prompt settings = listed_enhance_restore_prompt settings
  <-> EditorSettings.makeup settings = false.
Proof.
  intros Hmode. rewrite (enhance_prompt_restore_mode settings Hmode).
  unfold listed_enhance_restore_prompt.
  destruct (EditorSettings.makeup settings); split; try reflexivity;
    try discriminate.
  intros E. apply (f_equal String.length) in E.
  rewrite !length_append in E.
  change (String.length (EnhanceClause.when true EnhanceClause.cosmetic))
    with 59 in E.
  lia.
Qed.

(** In mode 'Upscale Only' the three flags are not read. *)
Lemma enhance_upscale_only_prompt (settings : EditorSettings.t) :
  EditorSettings.mode settings = UPSCALE_ONLY ->
  enhance_prompt settings =
    EnhanceClause.opening
    ++ EnhanceClause.upscale_only
    ++ EnhanceClause.target_quality (EditorSettings.quality settings)
    ++ EnhanceClause.sharpening (EditorSettings.sharpenLevel settings)
    ++ EnhanceClause.closing.
Proof.
  intros Hmode. unfold enhance_prompt. rewrite Hmode.
  change (Js.strict_eq (EnhancementMode_value UPSCALE_ONLY)
            (EnhancementMode_value ENHANCE_RESTORE)) with false.
  cbv beta iota zeta.
  unfold EnhanceClause.target_quality, EnhanceClause.sharpening.
  rewrite ?append_assoc. reflexivity.
Qed.

(* ===================================================================== *)
(** ** The color clause of the restore instruction *)
(* ===================================================================== *)

Section ColorClause.

Variable settings : RestorationSettings.t.

(** The instruction is sections 1 and 2, one of the two color clauses,
    section 4. *)
Lemma restore_prompt_split :
  restore_prompt settings =
  RestoreClause.before_color settings
  ++ (if RestorationSettings.colorRestoration settings
      then RestoreClause.colorization else RestoreClause.keep_color)
  ++ RestoreClause.after_color settings.
Proof.
  unfold restore_prompt, RestoreClause.before_color, RestoreClause.after_color.
  cbv beta zeta.
  destruct (RestorationSettings.colorRestoration settings);
    apply append_assoc.
Qed.

(** The capital Z occurs in the colorization clause and nowhere else in
    an instruction; the capital S occurs in the other color clause and
    nowhere else. *)
Lemma count_Z_before : Js.count "Z" (RestoreClause.before_color settings) = 0.
Proof.
  unfold RestoreClause.before_color. cbv beta zeta.
  destruct (RestorationSettings.faceRestoration settings);
    rewrite !count_app, count_of_number by reflexivity; reflexivity.
Qed.

Lemma count_S_before : Js.count "S" (RestoreClause.before_color settings) = 0.
Proof.
  unfold RestoreClause.before_color. cbv beta zeta.
  destruct (RestorationSettings.faceRestoration settings);
    rewrite !count_app, count_of_number by reflexivity; reflexivity.
Qed.

Lemma count_Z_after : Js.count "Z" (RestoreClause.after_color settings) = 0.
Proof.
  unfold RestoreClause.after_color.
  rewrite !count_app, count_of_number by reflexivity; reflexivity.
Qed.

Lemma count_S_after : Js.count "S" (RestoreClause.after_color settings) = 0.
Proof.
  unfold RestoreClause.after_color.
  rewrite !count_app, count_of_number by reflexivity; reflexivity.
Qed.

Lemma count_Z_prompt :
  Js.count "Z" (restore_prompt settings) =
  if RestorationSettings.colorRestoration settings then 1 else 0.
Proof.
  rewrite restore_prompt_split, !count_app, count_Z_before, count_Z_after.
  now destruct (RestorationSettings.colorRestoration settings).
Qed.

Lemma count_S_prompt :
  Js.count "S" (restore_prompt settings) =
  if RestorationSettings.colorRestoration settings then 0 else 1.
Proof.
  rewrite restore_prompt_split, !count_app, count_S_before, count_S_after.
  now destruct (RestorationSettings.colorRestoration settings).
Qed.

End ColorClause.

(** C5. In every restore instruction the colorization clause occurs once
    when [colorRestoration] is true and not at all when it is false, and
    the contrast and stain-removal clause occurs once when it is false and
    not at all when it is true: exactly one of the two is included, never
    both and never neither; and neither clause is part of the other. *)
Theorem restore_has_exactly_one_color_clause (settings : RestorationSettings.t) :
  Js.occurrences RestoreClause.colorization (restore_prompt settings)
    = (if RestorationSettings.colorRestoration settings then 1 else 0) /\
  Js.occurrences RestoreClause.keep_color (restore_prompt settings)
    = (if RestorationSettings.colorRestoration settings then 0 else 1) /\
  Js.includes (restore_prompt settings) RestoreClause.colorization
    = RestorationSettings.colorRestoration settings /\
  Js.includes (restore_prompt settings) RestoreClause.keep_color
    = negb (RestorationSettings.colorRestoration settings) /\
  Js.includes RestoreClause.colorization RestoreClause.keep_color = false /\
  Js.includes RestoreClause.keep_color RestoreClause.colorization = false.
Proof.
  assert (HZ := occurrences_le_count "3. COLORI"
    "ATION: If the photo is B&W or sepia, strictly colorize it with natural, historically accurate colors. If it's color but faded, restore vibrancy. "
    "Z" (restore_prompt settings)).
  assert (HS := occurrences_le_count "3. COLOR: Keep the original color profile (B&W or "
    "epia) but improve contrast and remove yellow aging stains. "
    "S" (restore_prompt settings)).
  change (Js.occurrences RestoreClause.colorization (restore_prompt settings)
          <= Js.count "Z" (restore_prompt settings)) in HZ.
  change (Js.occurrences RestoreClause.keep_color (restore_prompt settings)
          <= Js.count "S" (restore_prompt settings)) in HS.
  rewrite count_Z_prompt in HZ. rewrite count_S_prompt in HS.
  assert (Hpos := occurrences_app_pos
    (if RestorationSettings.colorRestoration settings
     then RestoreClause.colorization else RestoreClause.keep_color)
    (RestoreClause.before_color settings) (RestoreClause.after_color settings)).
  rewrite <- restore_prompt_split in Hpos.
  unfold Js.includes.
  destruct (RestorationSettings.colorRestoration settings);
    assert (E1 : Js.occurrences RestoreClause.colorization (restore_prompt settings)
                 = _) by (apply Nat.le_antisymm; [exact HZ | first [exact Hpos | lia]]);
    assert (E2 : Js.occurrences RestoreClause.keep_color (restore_prompt settings)
                 = _) by (apply Nat.le_antisymm; [exact HS | first [exact Hpos | lia]]);
    rewrite E1, E2; repeat split.
Qed.

(* ===================================================================== *)
(** ** Data URLs: [cleanBase64] and [getMimeType] *)
(* ===================================================================== *)

Section DataUrls.

Lemma strip_prefix_some (p s r : string) :
  Js.strip_prefix p s = Some r -> s = p ++ r.
Proof.
  revert s; induction p as [|a p IH]; intros [|b s]; cbn; try congruence.
  destruct (Ascii.eqb_spec a b) as [->|_]; [|discriminate].
  intros H. now rewrite (IH s H).
Qed.

Lemma strip_prefix_app (p s : string) : Js.strip_prefix p (p ++ s) = Some s.
Proof.
  induction p as [|a p IH]; cbn; [reflexivity|].
  now rewrite Ascii.eqb_refl.
Qed.


(** A run of class characters ends where the first other character is. *)
Lemma span_run (f : ascii -> bool) (run : string) (c : ascii) (rest : string) :
  string_forall f run = true -> f c = false ->
  Js.span f (run ++ String c rest) = (run, String c rest).
Proof.
  intros Hrun Hc. induction run as [|a run IH]; cbn.
  - now rewrite Hc.
  - cbn in Hrun. apply andb_prop in Hrun as [Ha Hrun].
    now rewrite Ha, (IH Hrun).
Qed.

(** A header of class characters before [;] matches one subtype only. *)
Lemma strip_subtype (t sub x y r : string) :
  string_forall mime_char t = true ->
  string_forall mime_char sub = true ->
  Js.strip_prefix (t ++ String ";" x) (sub ++ String ";" y) = Some r ->
  sub = t.
Proof.
  revert sub; induction t as [|a t IH]; intros [|c sub] Ht Hsub;
    cbn [Js.strip_prefix append]; cbn [string_forall] in Ht, Hsub;
    try reflexivity.
  - apply andb_prop in Hsub as [Hc _].
    destruct (Ascii.eqb_spec ";" c) as [<-|_]; [discriminate Hc | discriminate].
  - apply andb_prop in Ht as [Ha _].
    destruct (Ascii.eqb_spec a ";") as [->|_]; [discriminate Ha | discriminate].
  - apply andb_prop in Ht as [_ Ht]. apply andb_prop in Hsub as [_ Hsub].
    destruct (Ascii.eqb_spec a c) as [->|_]; [|discriminate].
    intros H. now rewrite (IH sub Ht Hsub H).
Qed.

Lemma getMimeType_of_header (sub payload : string) :
  sub <> "" -> string_forall mime_char sub = true ->
  getMimeType ("data:image/" ++ sub ++ ";base64," ++ payload) = "image/" ++ sub.
Proof.
  intros Hne Hsub. unfold getMimeType.
  rewrite strip_prefix_app.
  change (";base64," ++ payload) with (String ";" ("base64," ++ payload)).
  rewrite (span_run mime_char sub ";" ("base64," ++ payload) Hsub eq_refl).
  destruct sub as [|a sub]; [congruence|].
  change (String ";" ("base64," ++ payload)) with (";base64," ++ payload).
  now rewrite strip_prefix_app.
Qed.

Lemma cleanBase64_unknown_subtype (sub payload : string) :
  string_forall mime_char sub = true -> ~ In sub cleaned_subtypes ->
  cleanBase64 ("data:image/" ++ sub ++ ";base64," ++ payload)
  = "data:image/" ++ sub ++ ";base64," ++ payload.
Proof.
  intros Hsub Hnot. unfold cleanBase64. rewrite strip_prefix_app.
  change (";base64," ++ payload) with (String ";" ("base64," ++ payload)).
  assert (Hno : forall t, In t cleaned_subtypes ->
            Js.strip_prefix (t ++ ";base64,")
              (sub ++ String ";" ("base64," ++ payload)) = None).
  { intros t Ht.
    destruct (Js.strip_prefix (t ++ ";base64,")
                (sub ++ String ";" ("base64," ++ payload))) as [r|] eqn:E;
      [exfalso | reflexivity].
    assert (Hmime : string_forall mime_char t = true)
      by (destruct Ht as [<- | [<- | [<- | [<- | []]]]]; reflexivity).
    apply Hnot.
    change (t ++ ";base64,") with (t ++ String ";" "base64,") in E.
    now rewrite (strip_subtype t sub "base64," _ _ Hmime Hsub E). }
  pose proof (Hno "png" ltac:(cbn; tauto)) as H1.
  pose proof (Hno "jpeg" ltac:(cbn; tauto)) as H2.
  pose proof (Hno "jpg" ltac:(cbn; tauto)) as H3.
  pose proof (Hno "webp" ltac:(cbn; tauto)) as H4.
  unfold Js.strip_first. cbn [append] in *. now rewrite H1, H2, H3, H4.
Qed.

End DataUrls.

(** X1. [cleanBase64] removes at most one of its four headers from the
    start of its argument and nothing else: every string is the result,
    preceded by nothing or by one of the four headers. *)
Theorem cleanBase64_cuts_one_header (dataUrl : string) :
  exists header,
    In header ("" :: cleaned_headers) /\
    dataUrl = header ++ cleanBase64 dataUrl.
Proof.
  unfold cleanBase64.
  destruct (Js.strip_prefix "data:image/" dataUrl) as [rest|] eqn:E;
    [|exists ""; split; [now left | reflexivity]].
  apply strip_prefix_some in E. subst dataUrl. unfold Js.strip_first.
  destruct (Js.strip_prefix "png;base64," rest) as [p|] eqn:E1.
  { apply strip_prefix_some in E1. subst rest.
    exists "data:image/png;base64,". split; [cbn; tauto | reflexivity]. }
  destruct (Js.strip_prefix "jpeg;base64," rest) as [p|] eqn:E2.
  { apply strip_prefix_some in E2. subst rest.
    exists "data:image/jpeg;base64,". split; [cbn; tauto | reflexivity]. }
  destruct (Js.strip_prefix "jpg;base64," rest) as [p|] eqn:E3.
  { apply strip_prefix_some in E3. subst rest.
    exists "data:image/jpg;base64,". split; [cbn; tauto | reflexivity]. }
  destruct (Js.strip_prefix "webp;base64," rest) as [p|] eqn:E4.
  { apply strip_prefix_some in E4. subst rest.
    exists "data:image/webp;base64,". split; [cbn; tauto | reflexivity]. }
  exists "". split; [now left | reflexivity].
Qed.

(** X2. For a data URL of subtype png, jpeg, jpg or webp, [cleanBase64]
    returns the payload after the header, whatever the payload, and
    [getMimeType] returns 'image/' followed by the subtype. *)
Theorem known_data_url_is_split (subtype payload : string) :
  In subtype cleaned_subtypes ->
  cleanBase64 ("data:image/" ++ subtype ++ ";base64," ++ payload) = payload /\
  getMimeType ("data:image/" ++ subtype ++ ";base64," ++ payload)
  = "image/" ++ subtype.
Proof.
  intros [<- | [<- | [<- | [<- | []]]]]; split; reflexivity.
Qed.

Lemma known_data_url_is_split_witness :
  cleanBase64 ("data:image/" ++ "webp" ++ ";base64," ++ "UklGRg==") = "UklGRg==" /\
  getMimeType ("data:image/" ++ "webp" ++ ";base64," ++ "UklGRg==")
  = "image/" ++ "webp".
Proof.
  apply (known_data_url_is_split "webp" "UklGRg=="). cbn; tauto.
Defined.


(** X4. A data URL whose subtype is not one of png, jpeg, jpg, webp (a GIF,
    say) has its type recognised but its header left in place: with a key
    configured, the one call of any tab carries, as its image part, the
    whole data URL as data and 'image/' followed by the subtype as type. *)
Theorem unknown_subtype_is_sent_with_header
  (env : Env) (k : string) (activeTab : AppTab) (subtype payload : string)
  (enhanceSettings : EditorSettings.t) (idSettings : IDPhotoSettings.t)
  (restoreSettings : RestorationSettings.t) :
  API_KEY env = Some k -> Js.truthy k = true ->
  subtype <> "" -> string_forall mime_char subtype = true ->
  ~ In subtype cleaned_subtypes ->
  exists params,
    outbound_calls
      (trace (handleProcess_call activeTab
                ("data:image/" ++ subtype ++ ";base64," ++ payload)
                enhanceSettings idSettings restoreSettings env)) = [params] /\
    hd_error (contents params)
    = Some (image_part ("data:image/" ++ subtype ++ ";base64," ++ payload)
                       ("image/" ++ subtype)).
Proof.
  intros Hkey Hk Hne Hsub Hnot.
  pose proof (getMimeType_of_header subtype payload Hne Hsub) as Hm.
  pose proof (cleanBase64_unknown_subtype subtype payload Hsub Hnot) as Hc.
  destruct activeTab; unfold handleProcess_call; eexists; split;
    try apply (enhance_outbound env k Hkey Hk);
    try apply (idphoto_outbound env k Hkey Hk);
    try apply (restore_outbound env k Hkey Hk);
    cbn [contents hd_error]; now rewrite Hm, Hc.
Qed.

Lemma unknown_subtype_is_sent_with_header_witness :
  exists params,
    outbound_calls
      (trace (handleProcess_call ID_PHOTO
                ("data:image/" ++ "gif" ++ ";base64," ++ "R0lGODlh")
                DEFAULT_ENHANCE_SETTINGS DEFAULT_ID_SETTINGS
                DEFAULT_RESTORE_SETTINGS Sample.env)) = [params] /\
    hd_error (contents params)
    = Some (image_part ("data:image/" ++ "gif" ++ ";base64," ++ "R0lGODlh")
                       ("image/" ++ "gif")).
Proof.
  apply (unknown_subtype_is_sent_with_header Sample.env "key" ID_PHOTO
           "gif" "R0lGODlh"); try reflexivity; try discriminate.
  cbn. intros [H | [H | [H | [H | []]]]]; discriminate H.
Defined.

(* ===================================================================== *)
(** ** The runs of the service functions *)
(* ===================================================================== *)

Section ServiceRuns.

Variable env : Env.
Variable activeTab : AppTab.
Variable originalUrl : string.
Variable enhanceSettings : EditorSettings.t.
Variable idSettings : IDPhotoSettings.t.
Variable restoreSettings : RestorationSettings.t.

Let run := handleProcess_call activeTab originalUrl enhanceSettings idSettings
             restoreSettings env.
Let params := call_params activeTab originalUrl enhanceSettings idSettings
                restoreSettings.

Lemma configured_key_some (k : string) :
  configured_key env = Some k <-> API_KEY env = Some k /\ Js.truthy k = true.
Proof.
  unfold configured_key.
  destruct (API_KEY env) as [k'|];
    [|split; [discriminate | intros [H _]; discriminate H]].
  destruct (Js.truthy k') eqn:T; split.
  - intros [= ->]. now split.
  - intros [[= ->] _]. reflexivity.
  - discriminate.
  - intros [[= ->] T']. congruence.
Qed.

(** A run without a key. *)
Lemma run_without_key :
  configured_key env = None ->
  run = ([], inl (Error
    "API Key is missing. Please check your environment configuration.")).
Proof.
  unfold configured_key, run. intros H.
  destruct activeTab; unfold_service;
    destruct (API_KEY env) as [k|]; try reflexivity;
    cbn beta iota; destruct (Js.truthy k); try discriminate; reflexivity.
Qed.

(** A run with a key: one call, then the result, or one line on the
    console and the error of the [catch] block. *)
Lemma run_of_configured_key (k : string) :
  configured_key env = Some k ->
  run =
  match attempt env k params with
  | inr url => ([Outbound k params], inr url)
  | inl e =>
      ([Outbound k params; ConsoleError (console_label activeTab) e],
       inl (Error (Js.or_else (message e) (fallback_message activeTab))))
  end.
Proof.
  intros H. apply configured_key_some in H as [Hkey Hk].
  unfold run, params, attempt, call_params.
  destruct activeTab; run_with_key Hkey Hk; reflexivity.
Qed.

End ServiceRuns.

Lemma or_else_nonempty (a b : string) : b <> "" -> Js.or_else a b <> "".
Proof. unfold Js.or_else. destruct a; cbn; [auto | discriminate]. Qed.

Lemma fallback_message_nonempty (activeTab : AppTab) :
  fallback_message activeTab <> "".
Proof. destruct activeTab; discriminate. Qed.

Lemma inline_payload_nonempty (part : Part) (d : string) :
  inline_payload part = Some d -> d <> "".
Proof.
  unfold inline_payload.
  destruct (inlineData part) as [blob|]; [|discriminate].
  destruct (data blob) as [d'|]; [|discriminate].
  destruct d'; cbn; [discriminate|]. intros [= <-]. discriminate.
Qed.

Lemma first_inline_payload_nonempty (ps : list Part) (d : string) :
  first_inline_payload ps = Some d -> d <> "".
Proof.
  induction ps as [|part ps IH]; cbn; [discriminate|].
  destruct (inline_payload part) as [d'|] eqn:E; [|exact IH].
  intros [= <-]. exact (inline_payload_nonempty part d' E).
Qed.

(** What the extractor returns is a PNG data URL with a payload. *)
Lemma extract_returns_png (response : GenerateContentResponse) (url : string) :
  extractImageFromResponse response = inr url -> png_data_url url.
Proof.
  unfold extractImageFromResponse, throw.
  destruct (candidates response) as [cs|]; [|discriminate].
  destruct (nth_error cs 0) as [c0|]; [|discriminate].
  destruct (content c0) as [ct|]; [|discriminate].
  destruct (parts ct) as [ps|]; [|discriminate].
  destruct (first_inline_payload ps) as [d|] eqn:E; [|discriminate].
  intros [= <-]. exists d. split; [|reflexivity].
  exact (first_inline_payload_nonempty ps d E).
Qed.

(** X5. Whatever the environment, the image and the settings, an error a
    service function throws is an [Error] with a non-empty message: a
    rejection without a message, and a [TypeError] of the extractor, are
    replaced by an [Error] before they leave the function. *)
Theorem service_failure_has_message
  (env : Env) (activeTab : AppTab) (originalUrl : string)
  (enhanceSettings : EditorSettings.t) (idSettings : IDPhotoSettings.t)
  (restoreSettings : RestorationSettings.t) (e : JsError) :
  outcome (handleProcess_call activeTab originalUrl enhanceSettings idSettings
             restoreSettings env) = inl e ->
  exists m, e = Error m /\ m <> "".
Proof.
  destruct (configured_key env) as [k|] eqn:K.
  - rewrite (run_of_configured_key env activeTab originalUrl enhanceSettings
               idSettings restoreSettings k K).
    destruct (attempt env k _) as [e'|url]; cbn; [|discriminate].
    intros [= <-]. eexists. split; [reflexivity|].
    apply or_else_nonempty, fallback_message_nonempty.
  - rewrite (run_without_key env activeTab originalUrl enhanceSettings
               idSettings restoreSettings K). cbn.
    intros [= <-]. eexists. split; [reflexivity | discriminate].
Qed.

Lemma service_failure_has_message_witness :
  exists m,
    Error "Cannot read properties of undefined (reading 'parts')" = Error m /\
    m <> "".
Proof.
  apply (service_failure_has_message
           {| API_KEY := Some "key";
              remote := fun _ _ => inr Sample.response_without_content |}
           ENHANCE Sample.jpeg DEFAULT_ENHANCE_SETTINGS DEFAULT_ID_SETTINGS
           DEFAULT_RESTORE_SETTINGS).
  reflexivity.
Defined.

(** X6. When a service function returns, what it returns is
    'data:image/png;base64,' followed by a non-empty payload, whose type
    [getMimeType] reads as 'image/png' and whose payload [cleanBase64]
    gives back; a key was configured, and the run consisted of the one
    outbound call, with nothing written to the console. *)
Theorem service_success_is_png
  (env : Env) (activeTab : AppTab) (originalUrl : string)
  (enhanceSettings : EditorSettings.t) (idSettings : IDPhotoSettings.t)
  (restoreSettings : RestorationSettings.t) (url : string) :
  outcome (handleProcess_call activeTab originalUrl enhanceSettings idSettings
             restoreSettings env) = inr url ->
  (exists payload,
     payload <> "" /\ url = "data:image/png;base64," ++ payload /\
     cleanBase64 url = payload) /\
  getMimeType url = "image/png" /\
  exists k,
    configured_key env = Some k /\
    trace (handleProcess_call activeTab originalUrl enhanceSettings idSettings
             restoreSettings env)
    = [Outbound k (call_params activeTab originalUrl enhanceSettings idSettings
                     restoreSettings)].
Proof.
  destruct (configured_key env) as [k|] eqn:K.
  - rewrite (run_of_configured_key env activeTab originalUrl enhanceSettings
               idSettings restoreSettings k K).
    unfold attempt.
    destruct (remote env k _) as [e|response]; cbn; [discriminate|].
    destruct (extractImageFromResponse response) as [e|url'] eqn:E; cbn;
      [discriminate|].
    intros [= <-]. apply extract_returns_png in E as (payload & Hne & ->).
    split; [exists payload; repeat split; assumption|].
    split; [reflexivity|]. exists k. now split.
  - rewrite (run_without_key env activeTab originalUrl enhanceSettings
               idSettings restoreSettings K). discriminate.
Qed.

Lemma service_success_is_png_witness :
  (exists payload,
     payload <> "" /\
     "data:image/png;base64,iVBORw0KGgo=" = "data:image/png;base64," ++ payload /\
     cleanBase64 "data:image/png;base64,iVBORw0KGgo=" = payload) /\
  getMimeType "data:image/png;base64,iVBORw0KGgo=" = "image/png" /\
  exists k,
    configured_key Sample.env = Some k /\
    trace (handleProcess_call RESTORE Sample.jpeg DEFAULT_ENHANCE_SETTINGS
             DEFAULT_ID_SETTINGS DEFAULT_RESTORE_SETTINGS Sample.env)
    = [Outbound k (call_params RESTORE Sample.jpeg DEFAULT_ENHANCE_SETTINGS
                     DEFAULT_ID_SETTINGS DEFAULT_RESTORE_SETTINGS)].
Proof.
  apply (service_success_is_png Sample.env RESTORE Sample.jpeg
           DEFAULT_ENHANCE_SETTINGS DEFAULT_ID_SETTINGS DEFAULT_RESTORE_SETTINGS).
  reflexivity.
Defined.

(** X7. With a key configured, when the remote rejects the call, the run
    is that one call and one [console.error] with the tab's label and the
    rejection, and the error thrown carries the message of the rejection,
    or the tab's fallback message when the rejection has none. *)
Theorem rejection_is_logged_and_rethrown
  (env : Env) (k : string) (activeTab : AppTab) (originalUrl : string)
  (enhanceSettings : EditorSettings.t) (idSettings : IDPhotoSettings.t)
  (restoreSettings : RestorationSettings.t) (e : JsError) :
  configured_key env = Some k ->
  remote env k (call_params activeTab originalUrl enhanceSettings idSettings
                  restoreSettings) = inl e ->
  handleProcess_call activeTab originalUrl enhanceSettings idSettings
    restoreSettings env
  = ([Outbound k (call_params activeTab originalUrl enhanceSettings idSettings
                    restoreSettings);
      ConsoleError (console_label activeTab) e],
     inl (Error (if Js.truthy (message e) then message e
                 else fallback_message activeTab))).
Proof.
  intros K R.
  rewrite (run_of_configured_key env activeTab originalUrl enhanceSettings
               idSettings restoreSettings k K).
  unfold attempt. now rewrite R.
Qed.

Lemma rejection_is_logged_and_rethrown_witness :
  handleProcess_call ID_PHOTO Sample.jpeg DEFAULT_ENHANCE_SETTINGS
    DEFAULT_ID_SETTINGS DEFAULT_RESTORE_SETTINGS
    {| API_KEY := Some "key"; remote := fun _ _ => inl (Error "") |}
  = ([Outbound "key" (call_params ID_PHOTO Sample.jpeg DEFAULT_ENHANCE_SETTINGS
                        DEFAULT_ID_SETTINGS DEFAULT_RESTORE_SETTINGS);
      ConsoleError (console_label ID_PHOTO) (Error "")],
     inl (Error (if Js.truthy (message (Error "")) then message (Error "")
                 else fallback_message ID_PHOTO))).
Proof.
  apply (rejection_is_logged_and_rethrown
           {| API_KEY := Some "key"; remote := fun _ _ => inl (Error "") |}
           "key" ID_PHOTO Sample.jpeg); reflexivity.
Defined.

(** X8. A run of a service function makes one outbound call when a key is
    configured and none when it is not, whatever the remote answers: a
    rejected call or a response without an image is never tried again. *)
Theorem one_call_per_run
  (env : Env) (activeTab : AppTab) (originalUrl : string)
  (enhanceSettings : EditorSettings.t) (idSettings : IDPhotoSettings.t)
  (restoreSettings : RestorationSettings.t) :
  outbound_calls
    (trace (handleProcess_call activeTab originalUrl enhanceSettings idSettings
              restoreSettings env))
  = match configured_key env with
    | Some _ => [call_params activeTab originalUrl enhanceSettings idSettings
                   restoreSettings]
    | None => []
    end.
Proof.
  destruct (configured_key env) as [k|] eqn:K.
  - rewrite (run_of_configured_key env activeTab originalUrl enhanceSettings
               idSettings restoreSettings k K).
    now destruct (attempt env k _).
  - now rewrite (run_without_key env activeTab originalUrl enhanceSettings
                   idSettings restoreSettings K).
Qed.

(* ===================================================================== *)
(** ** What an instruction tells about the settings *)
(* ===================================================================== *)

Section Reading.

Lemma append_inj_l (p a b : string) : p ++ a = p ++ b -> a = b.
Proof. induction p as [|x p IH]; cbn; [auto | intros [= H]; auto]. Qed.

(** [`${n}`] of different integers is different text. *)
Lemma of_number_inj (n m : Z) : Js.of_number n = Js.of_number m -> n = m.
Proof.
  unfold Js.of_number. intros H.
  apply DecimalZ.to_int_inj.
  assert (P : forall z, NilZero.int_of_string (NilZero.string_of_int (Z.to_int z))
                        = Some (Z.to_int z)).
  { intros z. apply NilZero.isi; destruct z; cbn; try discriminate;
      intros [= E]; exact (DecimalPos.Unsigned.to_uint_nonnil _ E). }
  apply (f_equal NilZero.int_of_string) in H.
  rewrite !P in H. now injection H.
Qed.

Lemma forall_string_of_uint (d : Decimal.uint) :
  string_forall digit_or_minus (NilEmpty.string_of_uint d) = true.
Proof. induction d; cbn [NilEmpty.string_of_uint string_forall]; auto. Qed.

Lemma forall_of_number (n : Z) :
  string_forall digit_or_minus (Js.of_number n) = true.
Proof.
  unfold Js.of_number, NilZero.string_of_int, NilZero.string_of_uint.
  destruct (Z.to_int n) as [d|d]; destruct d; try reflexivity;
    try apply forall_string_of_uint;
    cbn [string_forall]; apply forall_string_of_uint.
Qed.

(** Two runs of digits, each followed by a character that is none, are
    equal when the texts are, and so is what follows them. *)
Lemma digits_then_stop (n m : string) (c d : ascii) (r q : string) :
  string_forall digit_or_minus n = true ->
  string_forall digit_or_minus m = true ->
  digit_or_minus c = false -> digit_or_minus d = false ->
  n ++ String c r = m ++ String d q ->
  n = m /\ String c r = String d q.
Proof.
  intros Hn Hm Hc Hd. revert m Hm.
  induction n as [|x n IH]; intros [|y m] Hm; cbn [append].
  - auto.
  - intros [= -> _]. cbn in Hm. rewrite Hc in Hm. discriminate.
  - intros [= -> _]. cbn in Hn. rewrite Hd in Hn. discriminate.
  - intros [= -> H]. cbn in Hn, Hm.
    apply andb_prop in Hn as [_ Hn]. apply andb_prop in Hm as [_ Hm].
    destruct (IH Hn m Hm H) as [-> E]. auto.
Qed.

(** Two rendered integers, each followed by the same text starting with a
    character that is no digit, are the same integer. *)
Lemma number_then_stop (n m : Z) (c : ascii) (r q : string) :
  digit_or_minus c = false ->
  Js.of_number n ++ String c r = Js.of_number m ++ String c q ->
  n = m /\ r = q.
Proof.
  intros Hc H.
  destruct (digits_then_stop _ _ c c r q (forall_of_number n)
              (forall_of_number m) Hc Hc H) as [E1 E2].
  split; [exact (of_number_inj n m E1) | now injection E2].
Qed.

(** The same, for a text [p] in place of the character. *)
Lemma number_then_text (n m : Z) (p r q : string) :
  match p with
  | String c _ => digit_or_minus c = false
  | EmptyString => False
  end ->
  Js.of_number n ++ p ++ r = Js.of_number m ++ p ++ q ->
  n = m /\ r = q.
Proof.
  destruct p as [|c p]; [contradiction|]. intros Hc H.
  cbn [append] in H. apply (number_then_stop n m c _ _ Hc) in H as [E H].
  split; [exact E | exact (append_inj_l p r q H)].
Qed.

End Reading.

(** X9. The restore instruction tells every setting the function reads:
    two restoration settings with the same instruction have the same
    scratch reduction, the same denoise level, the same color restoration
    flag and the same face restoration flag. *)
Theorem restore_prompt_tells_read_fields (a b : RestorationSettings.t) :
  restore_prompt a = restore_prompt b ->
  RestorationSettings.scratchReduction a = RestorationSettings.scratchReduction b /\
  RestorationSettings.denoiseLevel a = RestorationSettings.denoiseLevel b /\
  RestorationSettings.colorRestoration a = RestorationSettings.colorRestoration b /\
  RestorationSettings.faceRestoration a = RestorationSettings.faceRestoration b.
Proof.
  unfold restore_prompt. cbv zeta.
  destruct (RestorationSettings.faceRestoration a),
    (RestorationSettings.faceRestoration b),
    (RestorationSettings.colorRestoration a),
    (RestorationSettings.colorRestoration b);
    rewrite !append_assoc; intros H;
    do 2 apply append_inj_l in H;
    apply (number_then_text _ _ "%). " _ _ eq_refl) in H as [Es H];
    try discriminate H;
    repeat apply append_inj_l in H;
    apply (number_then_text _ _ "%." "" "" eq_refl) in H as [Ed _];
    auto.
Qed.

Lemma restore_prompt_tells_read_fields_witness :
  RestorationSettings.scratchReduction DEFAULT_RESTORE_SETTINGS
  = RestorationSettings.scratchReduction Sample.restore_without_sharpen /\
  RestorationSettings.denoiseLevel DEFAULT_RESTORE_SETTINGS
  = RestorationSettings.denoiseLevel Sample.restore_without_sharpen /\
  RestorationSettings.colorRestoration DEFAULT_RESTORE_SETTINGS
  = RestorationSettings.colorRestoration Sample.restore_without_sharpen /\
  RestorationSettings.faceRestoration DEFAULT_RESTORE_SETTINGS
  = RestorationSettings.faceRestoration Sample.restore_without_sharpen.
Proof.
  apply (restore_prompt_tells_read_fields DEFAULT_RESTORE_SETTINGS
           Sample.restore_without_sharpen).
  reflexivity.
Defined.

(** The quality and sharpening clauses can be read back. *)
Lemma enhance_tail_inj (qa qb : EnhancementQuality) (sa sb : Z) :
  EnhanceClause.target_quality qa ++ EnhanceClause.sharpening sa
    ++ EnhanceClause.closing
  = EnhanceClause.target_quality qb ++ EnhanceClause.sharpening sb
    ++ EnhanceClause.closing ->
  qa = qb /\ sa = sb.
Proof.
  unfold EnhanceClause.target_quality, EnhanceClause.sharpening.
  destruct qa, qb; cbn [EnhancementQuality_value];
    rewrite !append_assoc; intros H;
    apply append_inj_l in H;
    try discriminate H;
    repeat apply append_inj_l in H;
    apply (number_then_text _ _ "%." _ _ eq_refl) in H as [E _];
    auto.
Qed.

(** X10. The enhance instruction tells every setting the function reads:
    two enhance settings with the same instruction have the same quality,
    the same mode and the same sharpen level, and in mode 'Enhance &
    Restore' the same three flags. *)
Theorem enhance_prompt_tells_read_fields (a b : EditorSettings.t) :
  enhance_prompt a = enhance_prompt b ->
  EditorSettings.quality a = EditorSettings.quality b /\
  EditorSettings.mode a = EditorSettings.mode b /\
  EditorSettings.sharpenLevel a = EditorSettings.sharpenLevel b /\
  (EditorSettings.mode a = ENHANCE_RESTORE ->
   EditorSettings.hyperRealism a = EditorSettings.hyperRealism b /\
   EditorSettings.makeup a = EditorSettings.makeup b /\
   EditorSettings.colorize a = EditorSettings.colorize b).
Proof.
  destruct (EditorSettings.mode a) eqn:Ma, (EditorSettings.mode b) eqn:Mb.
  - rewrite (enhance_upscale_only_prompt a Ma), (enhance_upscale_only_prompt b Mb).
    intros H. do 2 apply append_inj_l in H.
    apply enhance_tail_inj in H as [Eq Es].
    repeat split; auto; discriminate.
  - rewrite (enhance_upscale_only_prompt a Ma), (enhance_prompt_restore_mode b Mb).
    intros H. apply append_inj_l in H. discriminate H.
  - rewrite (enhance_prompt_restore_mode a Ma), (enhance_upscale_only_prompt b Mb).
    intros H. apply append_inj_l in H. discriminate H.
  - rewrite (enhance_prompt_restore_mode a Ma), (enhance_prompt_restore_mode b Mb).
    intros H. do 2 apply append_inj_l in H.
    destruct (EditorSettings.hyperRealism a), (EditorSettings.hyperRealism b),
      (EditorSettings.makeup a), (EditorSettings.makeup b),
      (EditorSettings.colorize a), (EditorSettings.colorize b);
      cbn [EnhanceClause.when] in H;
      try discriminate H;
      repeat apply append_inj_l in H;
      apply enhance_tail_inj in H as [Eq Es];
      repeat split; auto.
Qed.

Lemma enhance_prompt_tells_read_fields_witness :
  EditorSettings.quality DEFAULT_ENHANCE_SETTINGS
  = EditorSettings.quality Sample.enhance_other_levels /\
  EditorSettings.mode DEFAULT_ENHANCE_SETTINGS
  = EditorSettings.mode Sample.enhance_other_levels /\
  EditorSettings.sharpenLevel DEFAULT_ENHANCE_SETTINGS
  = EditorSettings.sharpenLevel Sample.enhance_other_levels /\
  (EditorSettings.mode DEFAULT_ENHANCE_SETTINGS = ENHANCE_RESTORE ->
   EditorSettings.hyperRealism DEFAULT_ENHANCE_SETTINGS
   = EditorSettings.hyperRealism Sample.enhance_other_levels /\
   EditorSettings.makeup DEFAULT_ENHANCE_SETTINGS
   = EditorSettings.makeup Sample.enhance_other_levels /\
   EditorSettings.colorize DEFAULT_ENHANCE_SETTINGS
   = EditorSettings.colorize Sample.enhance_other_levels).
Proof.
  apply (enhance_prompt_tells_read_fields DEFAULT_ENHANCE_SETTINGS
           Sample.enhance_other_levels).
  reflexivity.
Defined.

Section IdPhotoReading.

(** The [prompt +=] statements of [generateIDPhotoWithGemini], laid out as
    one concatenation. *)
Lemma idphoto_prompt_flat (settings : IDPhotoSettings.t) :
  idphoto_prompt settings =
  "Strictly transform this image into a professional official ID/Passport photo. "
  ++ "1. CROP & COMPOSITION: Crop the image to a "
  ++ (if Js.strict_eq (apiAspectRatio settings) "3:4"
      then "Vertical Portrait" else "Square")
  ++ " format. "
  ++ "The face must be perfectly CENTERED and facing forward. "
  ++ "The head (from top of hair to chin) must occupy 70% to 80% of the vertical height. "
  ++ "Include the shoulders. Both ears should be visible if possible. Eyes must be level. "
  ++ "2. BACKGROUND: Remove the original background completely. Replace with a clean, flat "
  ++ bgMap (IDPhotoSettings.backgroundColor settings)
  ++ " background. No shadows on the background. "
  ++ "3. ENHANCEMENT: "
  ++ EnhanceClause.when (IDPhotoSettings.removeBlemishes settings)
       "Remove acne, moles, spots, and scratches from the face. "
  ++ "Smooth skin texture naturally (Intensity: "
  ++ Js.of_number (IDPhotoSettings.skinSmoothing settings)
  ++ "%). "
  ++ EnhanceClause.when (IDPhotoSettings.fixLighting settings)
       "Fix lighting to be even and soft (studio lighting), removing harsh shadows on the face. "
  ++ "4. OUTPUT: High resolution, sharp focus. Intended for printing at "
  ++ sizeMap (IDPhotoSettings.size settings)
  ++ ".".
Proof.
  unfold idphoto_prompt. cbv zeta.
  destruct (IDPhotoSettings.removeBlemishes settings),
    (IDPhotoSettings.fixLighting settings);
    cbn [EnhanceClause.when]; rewrite !append_assoc; reflexivity.
Qed.

(** A clause under a flag, before a text that starts with another
    character: the flag can be read back. *)
Lemma optional_clause_inj (fa fb : bool) (clause next ra rb : string) :
  match clause, next with
  | String c _, String d _ => Ascii.eqb c d = false
  | _, _ => False
  end ->
  EnhanceClause.when fa clause ++ next ++ ra
  = EnhanceClause.when fb clause ++ next ++ rb ->
  fa = fb /\ ra = rb.
Proof.
  destruct clause as [|c cl]; [contradiction|].
  destruct next as [|d nx]; [contradiction|]. intros Hcd.
  destruct fa, fb; cbn [EnhanceClause.when append]; intros H.
  - injection H as H. apply append_inj_l in H. injection H as H.
    apply append_inj_l in H. auto.
  - injection H as E _. subst d. now rewrite Ascii.eqb_refl in Hcd.
  - injection H as E _. subst d. now rewrite Ascii.eqb_refl in Hcd.
  - injection H as H. apply append_inj_l in H. auto.
Qed.

Lemma sizeMap_inj (za zb : IDPhotoSize) :
  sizeMap za ++ "." = sizeMap zb ++ "." -> za = zb.
Proof. destruct za, zb; cbn; intros H; try reflexivity; discriminate H. Qed.

Lemma bgMap_inj (ba bb : IDPhotoBackground) (ra rb : string) :
  bgMap ba ++ " background. No shadows on the background. " ++ ra
  = bgMap bb ++ " background. No shadows on the background. " ++ rb ->
  ba = bb /\ ra = rb.
Proof.
  destruct ba, bb; cbn [bgMap]; intros H; try discriminate H;
    do 2 apply append_inj_l in H; auto.
Qed.

Lemma format_inj (fa fb : bool) (ra rb : string) :
  (if fa then "Vertical Portrait" else "Square") ++ " format. " ++ ra
  = (if fb then "Vertical Portrait" else "Square") ++ " format. " ++ rb ->
  fa = fb /\ ra = rb.
Proof.
  destruct fa, fb; intros H; try discriminate H;
    do 2 apply append_inj_l in H; auto.
Qed.

End IdPhotoReading.

(** X11. The ID-photo instruction tells every setting the function reads:
    two ID-photo settings with the same instruction have the same size,
    the same background color, the same skin smoothing level and the same
    two flags. *)
Theorem idphoto_prompt_tells_read_fields (a b : IDPhotoSettings.t) :
  idphoto_prompt a = idphoto_prompt b ->
  IDPhotoSettings.size a = IDPhotoSettings.size b /\
  IDPhotoSettings.backgroundColor a = IDPhotoSettings.backgroundColor b /\
  IDPhotoSettings.skinSmoothing a = IDPhotoSettings.skinSmoothing b /\
  IDPhotoSettings.removeBlemishes a = IDPhotoSettings.removeBlemishes b /\
  IDPhotoSettings.fixLighting a = IDPhotoSettings.fixLighting b.
Proof.
  rewrite !idphoto_prompt_flat. intros H.
  do 2 apply append_inj_l in H.
  apply format_inj in H as [_ H].
  do 4 apply append_inj_l in H.
  apply bgMap_inj in H as [Ebg H].
  apply append_inj_l in H.
  apply optional_clause_inj in H as [Eblem H]; [|reflexivity].
  apply (number_then_text _ _ "%). " _ _ eq_refl) in H as [Eskin H].
  apply optional_clause_inj in H as [Elight H]; [|reflexivity].
  apply sizeMap_inj in H. auto.
Qed.

Lemma idphoto_prompt_tells_read_fields_witness :
  IDPhotoSettings.size DEFAULT_ID_SETTINGS = IDPhotoSettings.size Sample.id_with_8K /\
  IDPhotoSettings.backgroundColor DEFAULT_ID_SETTINGS
  = IDPhotoSettings.backgroundColor Sample.id_with_8K /\
  IDPhotoSettings.skinSmoothing DEFAULT_ID_SETTINGS
  = IDPhotoSettings.skinSmoothing Sample.id_with_8K /\
  IDPhotoSettings.removeBlemishes DEFAULT_ID_SETTINGS
  = IDPhotoSettings.removeBlemishes Sample.id_with_8K /\
  IDPhotoSettings.fixLighting DEFAULT_ID_SETTINGS
  = IDPhotoSettings.fixLighting Sample.id_with_8K.
Proof.
  apply (idphoto_prompt_tells_read_fields DEFAULT_ID_SETTINGS Sample.id_with_8K).
  reflexivity.
Defined.

(* ===================================================================== *)
(** ** What the service functions do not read *)
(* ===================================================================== *)

(** X12. In mode 'Upscale Only' the flags [hyperRealism], [colorize] and
    [makeup] are not read: two enhance settings in that mode with the same
    quality and the same sharpen level give the same instruction and the
    same run on any image in any environment. *)
Theorem upscale_only_ignores_flags (a b : EditorSettings.t) :
  EditorSettings.mode a = UPSCALE_ONLY ->
  EditorSettings.mode b = UPSCALE_ONLY ->
  EditorSettings.quality a = EditorSettings.quality b ->
  EditorSettings.sharpenLevel a = EditorSettings.sharpenLevel b ->
  enhance_prompt a = enhance_prompt b /\
  forall (imageBase64 : string) (env : Env),
    enhanceImageWithGemini imageBase64 a env
    = enhanceImageWithGemini imageBase64 b env.
Proof.
  intros Ma Mb Eq Es.
  assert (Ep : enhance_prompt a = enhance_prompt b).
  { rewrite (enhance_upscale_only_prompt a Ma), (enhance_upscale_only_prompt b Mb).
    now rewrite Eq, Es. }
  split; [exact Ep|]. intros imageBase64 env.
  unfold enhanceImageWithGemini, enhance_model, enhance_config, enhance_isPro.
  now rewrite Ep, Eq.
Qed.

Lemma upscale_only_ignores_flags_witness :
  enhance_prompt Sample.upscale_only = enhance_prompt Sample.upscale_only_flipped /\
  forall (imageBase64 : string) (env : Env),
    enhanceImageWithGemini imageBase64 Sample.upscale_only env
    = enhanceImageWithGemini imageBase64 Sample.upscale_only_flipped env.
Proof.
  apply (upscale_only_ignores_flags Sample.upscale_only Sample.upscale_only_flipped);
    reflexivity.
Defined.

(** X13. The ID-photo function does not read the quality: two ID-photo
    settings that agree on size, background color, skin smoothing and the
    two flags give the same instruction, the same config and the same run
    on any image in any environment. *)
Theorem idphoto_ignores_quality (a b : IDPhotoSettings.t) :
  IDPhotoSettings.size a = IDPhotoSettings.size b ->
  IDPhotoSettings.backgroundColor a = IDPhotoSettings.backgroundColor b ->
  IDPhotoSettings.skinSmoothing a = IDPhotoSettings.skinSmoothing b ->
  IDPhotoSettings.removeBlemishes a = IDPhotoSettings.removeBlemishes b ->
  IDPhotoSettings.fixLighting a = IDPhotoSettings.fixLighting b ->
  idphoto_prompt a = idphoto_prompt b /\
  idphoto_config a = idphoto_config b /\
  forall (imageBase64 : string) (env : Env),
    generateIDPhotoWithGemini imageBase64 a env
    = generateIDPhotoWithGemini imageBase64 b env.
Proof.
  destruct a, b. cbn. intros -> -> -> -> ->. repeat split.
Qed.

Lemma idphoto_ignores_quality_witness :
  idphoto_prompt DEFAULT_ID_SETTINGS = idphoto_prompt Sample.id_with_8K /\
  idphoto_config DEFAULT_ID_SETTINGS = idphoto_config Sample.id_with_8K /\
  forall (imageBase64 : string) (env : Env),
    generateIDPhotoWithGemini imageBase64 DEFAULT_ID_SETTINGS env
    = generateIDPhotoWithGemini imageBase64 Sample.id_with_8K env.
Proof.
  apply (idphoto_ignores_quality DEFAULT_ID_SETTINGS Sample.id_with_8K);
    reflexivity.
Defined.

(** X14. The format the ID-photo instruction names is the one of the
    config: the instruction asks for a 'Square format' exactly when the
    aspect ratio of the config is '1:1', and for a 'Vertical Portrait
    format' exactly when it is '3:4'. *)
Theorem idphoto_format_matches_ratio (settings : IDPhotoSettings.t) :
  (String.prefix
     "Strictly transform this image into a professional official ID/Passport photo. 1. CROP & COMPOSITION: Crop the image to a Square format. "
     (idphoto_prompt settings) = true
   <-> idphoto_config settings =
       {| imageConfig := Some {| imageSize := None; aspectRatio := Some "1:1" |} |}) /\
  (String.prefix
     "Strictly transform this image into a professional official ID/Passport photo. 1. CROP & COMPOSITION: Crop the image to a Vertical Portrait format. "
     (idphoto_prompt settings) = true
   <-> idphoto_config settings =
       {| imageConfig := Some {| imageSize := None; aspectRatio := Some "3:4" |} |}).
Proof.
  rewrite idphoto_prompt_flat. unfold idphoto_config.
  rewrite apiAspectRatio_by_size.
  destruct (IDPhotoSettings.size settings); cbn;
    repeat split; intros; try reflexivity; discriminate.
Qed.

(* ===================================================================== *)
(** ** The extractor on a response with content *)
(* ===================================================================== *)

(** X15. When the first candidate of a response has content, the extractor
    returns the payload of the first segment that has one, under the
    header 'data:image/png;base64,': the segments after it, the candidates
    after the first, and the media type the segment declares play no part. *)
Theorem extract_uses_first_payload
  (pre post : list Part) (part : Part) (others : list Candidate) (d : string) :
  Forall (fun p => inline_payload p = None) pre ->
  inline_payload part = Some d ->
  extractImageFromResponse (response_with_first (pre ++ part :: post) others)
  = inr ("data:image/png;base64," ++ d).
Proof.
  intros Hpre Hpart.
  exact (extract_first_segment (pre ++ part :: post) others pre post part d
           eq_refl Hpre Hpart).
Qed.

Lemma extract_uses_first_payload_witness :
  extractImageFromResponse
    (response_with_first
       ([text_part "Here is your image."]
        ++ image_part "AAAA" "image/jpeg" :: [image_part "BBBB" "image/png"])
       [ {| content := None |} ])
  = inr ("data:image/png;base64," ++ "AAAA").
Proof.
  apply (extract_uses_first_payload [text_part "Here is your image."]
           [image_part "BBBB" "image/png"] (image_part "AAAA" "image/jpeg")
           [ {| content := None |} ] "AAAA").
  - repeat constructor.
  - reflexivity.
Defined.

(* ===================================================================== *)
(** ** The workspace *)
(* ===================================================================== *)

(** A service function returns a PNG data URL or throws an [Error] with a
    message. *)
Lemma service_outcome_cases
  (env : Env) (activeTab : AppTab) (originalUrl : string)
  (enhanceSettings : EditorSettings.t) (idSettings : IDPhotoSettings.t)
  (restoreSettings : RestorationSettings.t) :
  (exists url,
     outcome (handleProcess_call activeTab originalUrl enhanceSettings
                idSettings restoreSettings env) = inr url /\
     png_data_url url) \/
  (exists m,
     outcome (handleProcess_call activeTab originalUrl enhanceSettings
                idSettings restoreSettings env) = inl (Error m) /\
     m <> "").
Proof.
  destruct (configured_key env) as [k|] eqn:K.
  - rewrite (run_of_configured_key env activeTab originalUrl enhanceSettings
               idSettings restoreSettings k K).
    unfold attempt.
    destruct (remote env k _) as [e|response]; cbn.
    + right. eexists. split; [reflexivity|].
      apply or_else_nonempty, fallback_message_nonempty.
    + destruct (extractImageFromResponse response) as [e|url] eqn:E; cbn.
      * right. eexists. split; [reflexivity|].
        apply or_else_nonempty, fallback_message_nonempty.
      * left. exists url. split; [reflexivity|].
        exact (extract_returns_png response url E).
  - rewrite (run_without_key env activeTab originalUrl enhanceSettings
               idSettings restoreSettings K).
    right. eexists. split; [reflexivity | discriminate].
Qed.

(** X16. [handleProcess], run to its end: without an image it does nothing
    at all; with one, it leaves the image, ends with [isProcessing] false,
    and either sets the processed image to a PNG data URL and the error to
    null, or keeps the processed image it found and sets a non-empty
    error. *)
Theorem handleProcess_settles
  (imgState : ImageState.t) (activeTab : AppTab)
  (enhanceSettings : EditorSettings.t) (idSettings : IDPhotoSettings.t)
  (restoreSettings : RestorationSettings.t) (env : Env) :
  if truthy_url (ImageState.originalUrl imgState)
  then
    ImageState.originalUrl
      (snd (handleProcess imgState activeTab enhanceSettings idSettings
              restoreSettings env))
    = ImageState.originalUrl imgState /\
    ImageState.isProcessing
      (snd (handleProcess imgState activeTab enhanceSettings idSettings
              restoreSettings env))
    = false /\
    ((exists url,
        png_data_url url /\
        ImageState.processedUrl
          (snd (handleProcess imgState activeTab enhanceSettings idSettings
                  restoreSettings env))
        = Some url /\
        ImageState.error
          (snd (handleProcess imgState activeTab enhanceSettings idSettings
                  restoreSettings env))
        = None) \/
     (exists m,
        m <> "" /\
        ImageState.error
          (snd (handleProcess imgState activeTab enhanceSettings idSettings
                  restoreSettings env))
        = Some m /\
        ImageState.processedUrl
          (snd (handleProcess imgState activeTab enhanceSettings idSettings
                  restoreSettings env))
        = ImageState.processedUrl imgState))
  else
    handleProcess imgState activeTab enhanceSettings idSettings restoreSettings env
    = ([], imgState).
Proof.
  unfold handleProcess, truthy_url.
  destruct (ImageState.originalUrl imgState) as [url|] eqn:U; [|reflexivity].
  destruct (Js.truthy url); [|reflexivity]. cbn [snd].
  destruct (service_outcome_cases env activeTab url enhanceSettings idSettings
              restoreSettings) as [(r & -> & Hr) | (m & -> & Hm)];
    cbn; rewrite ?U; repeat split.
  - left. exists r. now repeat split.
  - right. exists m. destruct m; [congruence|]. now repeat split.
Qed.

(** X17. [handleProcess] with an image and no API key: no event at all, the
    workspace shows 'API Key is missing. Please check your environment
    configuration.', [isProcessing] is false again, and the images are the
    ones it found. *)
Theorem handleProcess_without_key
  (imgState : ImageState.t) (activeTab : AppTab)
  (enhanceSettings : EditorSettings.t) (idSettings : IDPhotoSettings.t)
  (restoreSettings : RestorationSettings.t) (env : Env) :
  truthy_url (ImageState.originalUrl imgState) = true ->
  configured_key env = None ->
  handleProcess imgState activeTab enhanceSettings idSettings restoreSettings env
  = ([],
     {| ImageState.originalUrl := ImageState.originalUrl imgState;
        ImageState.processedUrl := ImageState.processedUrl imgState;
        ImageState.isProcessing := false;
        ImageState.error :=
          Some "API Key is missing. Please check your environment configuration." |}).
Proof.
  unfold handleProcess, truthy_url. intros U K.
  destruct (ImageState.originalUrl imgState) as [url|] eqn:E; [|discriminate].
  rewrite U.
  rewrite (run_without_key env activeTab url enhanceSettings idSettings
             restoreSettings K).
  cbn. now rewrite E.
Qed.

Lemma handleProcess_without_key_witness :
  handleProcess Sample.workspace_with_result ID_PHOTO DEFAULT_ENHANCE_SETTINGS
    DEFAULT_ID_SETTINGS DEFAULT_RESTORE_SETTINGS Sample.env_without_key
  = ([],
     {| ImageState.originalUrl := ImageState.originalUrl Sample.workspace_with_result;
        ImageState.processedUrl := ImageState.processedUrl Sample.workspace_with_result;
        ImageState.isProcessing := false;
        ImageState.error :=
          Some "API Key is missing. Please check your environment configuration." |}).
Proof.
  apply (handleProcess_without_key Sample.workspace_with_result ID_PHOTO);
    reflexivity.
Defined.

(** X18. Whatever the handlers of the workspace do, in whatever order, and
    whenever the calls in flight settle: an error the workspace shows is
    never the empty text, and a processed image is always
    'data:image/png;base64,' followed by a non-empty payload. *)
Theorem workspace_invariant (env : Env) (s : ImageState.t) :
  reachable env s ->
  (forall m, ImageState.error s = Some m -> m <> "") /\
  (forall url, ImageState.processedUrl s = Some url -> png_data_url url).
Proof.
  induction 1 as [|s s' _ [IHe IHp] Hstep].
  - split; discriminate.
  - destruct Hstep as [fileType s | result s | s _
                      | activeTab url es ids rs s | s | s].
    + unfold processFile.
      destruct (negb (String.prefix "image/" fileType)); cbn; [|now split].
      split; [intros m [= <-]; discriminate | exact IHp].
    + split; discriminate.
    + split; [discriminate | exact IHp].
    + destruct (service_outcome_cases env activeTab url es ids rs)
        as [(r & -> & Hr) | (m & -> & Hm)]; cbn.
      * split; [exact IHe | intros u [= <-]; exact Hr].
      * split; [|exact IHp]. intros m' [= <-]. now destruct m.
    + split; discriminate.
    + split; [exact IHe | discriminate].
Qed.

Lemma workspace_invariant_witness :
  (forall m,
     ImageState.error
       (handleProcess_settle
          (outcome (handleProcess_call ENHANCE Sample.jpeg DEFAULT_ENHANCE_SETTINGS
                      DEFAULT_ID_SETTINGS DEFAULT_RESTORE_SETTINGS Sample.env))
          (reader_onload Sample.jpeg)) = Some m -> m <> "") /\
  (forall url,
     ImageState.processedUrl
       (handleProcess_settle
          (outcome (handleProcess_call ENHANCE Sample.jpeg DEFAULT_ENHANCE_SETTINGS
                      DEFAULT_ID_SETTINGS DEFAULT_RESTORE_SETTINGS Sample.env))
          (reader_onload Sample.jpeg)) = Some url -> png_data_url url).
Proof.
  apply (workspace_invariant Sample.env).
  eapply reachable_step; [eapply reachable_step; [apply reachable_initial|]|].
  - apply (step_reader_onload Sample.env Sample.jpeg).
  - apply (step_settle Sample.env ENHANCE Sample.jpeg).
Defined.



(** X20. The text [getProcessingText] shows names 'Gemini 3 Pro' exactly
    when the call of the tab, for the same settings, goes to
    'gemini-3-pro-image-preview'. *)
Theorem processing_text_names_the_model
  (activeTab : AppTab) (originalUrl : string)
  (enhanceSettings : EditorSettings.t) (idSettings : IDPhotoSettings.t)
  (restoreSettings : RestorationSettings.t) :
  Js.includes (getProcessingText activeTab enhanceSettings) "Gemini 3 Pro" = true
  <-> model (call_params activeTab originalUrl enhanceSettings idSettings
               restoreSettings) = "gemini-3-pro-image-preview".
Proof.
  destruct activeTab; cbn [getProcessingText call_params model].
  - unfold enhance_model, enhance_isPro.
    destruct (EditorSettings.quality enhanceSettings); cbn;
      split; intros; try reflexivity; discriminate.
  - split; intros; discriminate.
  - split; intros; reflexivity.
Qed.

(** X21. The extractor throws a [TypeError] exactly on the responses whose
    list of candidates is empty or whose first candidate has no content;
    on every other response it returns, or throws 'No image data returned
    from Gemini.'. *)
Theorem extract_TypeError_iff (response : GenerateContentResponse) :
  ((exists m, extractImageFromResponse response = inl (TypeError m))
   <-> (candidates response = Some [] \/
        exists c0 others,
          candidates response = Some (c0 :: others) /\ content c0 = None)) /\
  ((exists url, extractImageFromResponse response = inr url) \/
   extractImageFromResponse response
   = inl (Error "No image data returned from Gemini.") \/
   exists m, extractImageFromResponse response = inl (TypeError m)).
Proof.
  unfold extractImageFromResponse, throw.
  destruct (candidates response) as [[|c0 others]|]; cbn.
  - split; [split; [auto | eauto] | eauto].
  - destruct (content c0) as [ct|] eqn:C.
    + destruct (parts ct) as [ps|];
        [destruct (first_inline_payload ps) as [d|]|];
        (split; [split; [intros [m H]; discriminate H
                        | intros [H | (c & o & [= <- _] & H)];
                          [discriminate H | congruence]]
                | eauto]).
    + split; [split; [intros _; right; eauto | eauto] | eauto].
  - split; [split; [intros [m H]; discriminate H
                   | intros [H | (c & o & H & _)]; discriminate H]
           | auto].
Qed.
